(** * Focus borders of the accessibility module

    A shallow embedding of [ts/modules/accessibility/focusBorder.ts]:
    [SVGElement#addFocusBorder], [SVGElement#removeFocusBorder] and
    [Chart#setFocusToElement], over an explicit store of the objects the
    three methods read and mutate. *)

From Stdlib Require Import QArith PrimFloat Uint63 Ascii String.
From stdpp Require Import gmap strings list pretty.

Set Warnings "-inexact-float".
Local Open Scope Z_scope.

(** * JavaScript numbers *)

(** The arithmetic the source performs on numbers, as an interface: the
    geometry below is written once against it and run on two carriers. *)
Class JSNumber (N : Type) := {
  lit : Q → N;              (* a decimal literal of the source *)
  add : N → N → N;
  sub : N → N → N;
  mul : N → N → N;
  neg : N → N;
  toBoolean : N → bool      (* ToBoolean on a number *)
}.

Declare Scope js_scope.
Delimit Scope js_scope with js.
Notation "a + b" := (add a b) : js_scope.
Notation "a - b" := (sub a b) : js_scope.
Notation "a * b" := (mul a b) : js_scope.
Notation "- a" := (neg a) : js_scope.

(** ** Exact carrier

    A number is a rational or NaN. The operations are exact (binary64
    rounding, infinities and the sign of zero are left out) and return
    reduced fractions, so that equal results are equal terms. *)
Inductive number :=
  | Num (q : Q)
  | NaN.

Definition num_lift2 (f : Q → Q → Q) (a b : number) : number :=
  match a, b with
  | Num x, Num y => Num (Qred (f x y))
  | _, _ => NaN
  end.

Definition num_neg (a : number) : number :=
  match a with
  | Num x => Num (Qred (Qopp x))
  | NaN => NaN
  end.

(** ToBoolean: [false] for 0 and NaN. *)
Definition num_toBoolean (a : number) : bool :=
  match a with
  | Num x => negb (Qeq_bool x 0)
  | NaN => false
  end.

#[global] Instance number_JSNumber : JSNumber number := {
  lit := Num;
  add := num_lift2 Qplus;
  sub := num_lift2 Qminus;
  mul := num_lift2 Qmult;
  neg := num_neg;
  toBoolean := num_toBoolean
}.

(** ** binary64 carrier

    The kernel's IEEE 754 binary64 numbers, which are JavaScript's. A
    literal [n/d] with [n] and [d] below 2^53 is the correctly rounded
    quotient, that is the double nearest to the decimal. *)
Definition f64_of_Z (z : Z) : float :=
  match z with
  | Zneg p => PrimFloat.opp (PrimFloat.of_uint63 (Uint63.of_Z (Zpos p)))
  | _ => PrimFloat.of_uint63 (Uint63.of_Z z)
  end.

Definition f64_lit (q : Q) : float :=
  PrimFloat.div (f64_of_Z (Qnum q)) (f64_of_Z (Zpos (Qden q))).

Definition f64_toBoolean (f : float) : bool :=
  negb (PrimFloat.is_zero f || PrimFloat.is_nan f).

#[global] Instance f64_JSNumber : JSNumber float := {
  lit := f64_lit;
  add := PrimFloat.add;
  sub := PrimFloat.sub;
  mul := PrimFloat.mul;
  neg := PrimFloat.opp;
  toBoolean := f64_toBoolean
}.

(** * JavaScript values and strings *)

(** The values a style property can hold. *)
Inductive value :=
  | VUndefined
  | VNumber (n : number)
  | VString (s : string).

Definition ToBoolean (v : value) : bool :=
  match v with
  | VUndefined => false
  | VNumber n => toBoolean n
  | VString s => negb (String.eqb s "")
  end.

(** [a || b] *)
Definition js_or (a b : value) : value :=
  if ToBoolean a then a else b.

(** ** Number::toString, radix 10 (ECMA-262 6.1.6.1.20)

    [x = s * 10^(n-k)] with [k] digits in [s]. On the exact carrier the
    digits are those of the rational itself, up to 21 significant ones and
    cut there: an integer below 10^21 in magnitude is written in full, a
    decimal as it is written. The statements below go through it for
    integers, and for the decimal 2.5 as an example. *)
Definition ndigits (p : Z) : Z := Z.of_nat (String.length (pretty p)).

Fixpoint strip_zeros (fuel : nat) (s : Z) : Z :=
  match fuel with
  | O => s
  | S fuel' =>
      if (0 <? s) && (s mod 10 =? 0) then strip_zeros fuel' (s / 10) else s
  end.

Fixpoint zeros (n : nat) : string :=
  match n with
  | O => ""
  | S n' => String "0"%char (zeros n')
  end.

(** [10^(n-1) <= a/b < 10^n] for positive [a] and [b]. *)
Definition decimal_exponent (a b : Z) : Z :=
  let e := ndigits a - ndigits b in
  let ge := if 0 <=? e then b * 10 ^ e <=? a else b <=? a * 10 ^ (- e) in
  if ge then e + 1 else e.

Definition significand (a b n : Z) : Z :=
  let e := 21 - n in
  let s0 := if 0 <=? e then (a * 10 ^ e) / b else a / (b * 10 ^ (- e)) in
  strip_zeros 21 s0.

Definition positive_toString (a b : Z) : string :=
  let n := decimal_exponent a b in
  let ds := pretty (significand a b n) in
  let k := Z.of_nat (String.length ds) in
  if (k <=? n) && (n <=? 21) then ds +:+ zeros (Z.to_nat (n - k))
  else if (0 <? n) && (n <=? 21) then
    substring 0 (Z.to_nat n) ds +:+ "."
      +:+ substring (Z.to_nat n) (Z.to_nat (k - n)) ds
  else if (-6 <? n) && (n <=? 0) then "0." +:+ zeros (Z.to_nat (- n)) +:+ ds
  else
    let e := n - 1 in
    let ex := (if 0 <=? e then "e+" else "e-") +:+ pretty (Z.abs e) in
    if k =? 1 then ds +:+ ex
    else substring 0 1 ds +:+ "." +:+ substring 1 (Z.to_nat (k - 1)) ds +:+ ex.

Definition Number_toString (x : number) : string :=
  match x with
  | NaN => "NaN"
  | Num q =>
      match Qnum q with
      | Z0 => "0"
      | Zpos a => positive_toString (Zpos a) (Zpos (Qden q))
      | Zneg a => "-" +:+ positive_toString (Zpos a) (Zpos (Qden q))
      end
  end.

(** [v.toString()]; a TypeError on [undefined]. *)
Definition toString (v : value) : option string :=
  match v with
  | VUndefined => None
  | VNumber n => Some (Number_toString n)
  | VString s => Some s
  end.

(** ** parseInt(string, 10) (ECMA-262 19.2.5)

    Strings are held in UTF-8. The white space skipped is the
    StrWhiteSpaceChar of ECMA-262: TAB, LF, VT, FF, CR and SP, which are
    one byte each, U+00A0, which is two, and U+1680, U+2000 to U+200A,
    U+2028, U+2029, U+202F, U+205F, U+3000 and U+FEFF, which are three.
    The integer read is exact: on the exact carrier nothing is rounded. *)
Definition is_white_space (c : ascii) : bool :=
  let n := nat_of_ascii c in
  ((9 <=? n) && (n <=? 13) || (n =? 32))%nat.

(** U+00A0 is C2 A0. *)
Definition is_white_space2 (c1 c2 : ascii) : bool :=
  ((nat_of_ascii c1 =? 194) && (nat_of_ascii c2 =? 160))%nat.

(** U+1680 is E1 9A 80; U+2000 to U+200A, U+2028, U+2029 and U+202F are
    E2 80 followed by 80 to 8A, A8, A9 and AF; U+205F is E2 81 9F; U+3000
    is E3 80 80; U+FEFF is EF BB BF. *)
Definition is_white_space3 (c1 c2 c3 : ascii) : bool :=
  let n1 := nat_of_ascii c1 in
  let n2 := nat_of_ascii c2 in
  let n3 := nat_of_ascii c3 in
  ((n1 =? 225) && (n2 =? 154) && (n3 =? 128)
   || (n1 =? 226) && (n2 =? 128)
      && ((128 <=? n3) && (n3 <=? 138) || (n3 =? 168) || (n3 =? 169)
          || (n3 =? 175))
   || (n1 =? 226) && (n2 =? 129) && (n3 =? 159)
   || (n1 =? 227) && (n2 =? 128) && (n3 =? 128)
   || (n1 =? 239) && (n2 =? 187) && (n3 =? 191))%nat.

Fixpoint trim_start (s : string) : string :=
  match s with
  | String c1 s1 =>
      if is_white_space c1 then trim_start s1
      else if (128 <=? nat_of_ascii c1)%nat then
        match s1 with
        | String c2 s2 =>
            if is_white_space2 c1 c2 then trim_start s2
            else match s2 with
                 | String c3 s3 =>
                     if is_white_space3 c1 c2 c3 then trim_start s3 else s
                 | EmptyString => s
                 end
        | EmptyString => s
        end
      else s
  | EmptyString => s
  end.

Definition digit_value (c : ascii) : option Z :=
  let n := Z.of_nat (nat_of_ascii c) in
  if (48 <=? n) && (n <=? 57) then Some (n - 48) else None.

(** The value of the longest prefix of decimal digits, if it is not empty. *)
Fixpoint digits_prefix (s : string) (acc : option Z) : option Z :=
  match s with
  | String c s' =>
      match digit_value c with
      | Some d => digits_prefix s' (Some (10 * default 0 acc + d))
      | None => acc
      end
  | EmptyString => acc
  end.

(** An optional sign, and what follows it. *)
Definition sign_split (s : string) : Z * string :=
  match s with
  | String "-"%char s' => (-1, s')
  | String "+"%char s' => (1, s')
  | _ => (1, s)
  end.

Definition parseInt (input : string) : number :=
  let '(sign, s) := sign_split (trim_start input) in
  match digits_prefix s None with
  | Some z => Num (inject_Z (sign * z))
  | None => NaN
  end.

(** * The border rectangle ([addFocusBorder], lines 70 to 94) *)

Record BBox (N : Type) := mkBBox {
  bb_x : N;
  bb_y : N;
  bb_width : N;
  bb_height : N
}.
Arguments mkBBox {N}.
Arguments bb_x {N}.
Arguments bb_y {N}.
Arguments bb_width {N}.
Arguments bb_height {N}.

(** Modelled from the spec: [pick] of parts/Utilities.js, which is not in
    this file; for two arguments, the first if it is provided, else the
    second ("effective margin = margin if provided, else 3"). *)
Definition pick {A : Type} (a : option A) (b : A) : A :=
  match a with
  | Some v => v
  | None => b
  end.

Section Geometry.
Context {N : Type} `{JSNumber N}.
Local Open Scope js_scope.

(** [this.translateX ? this.translateX : 0] *)
Definition translation (t : option N) : N :=
  match t with
  | Some v => if toBoolean v then v else lit 0
  | None => lit 0
  end.

(** [bb.x += this.translateX ? this.translateX : 0] and the same for y
    (lines 73 and 74): the box as these two assignments leave it. *)
Definition translated (bb : BBox N) (translateX translateY : option N)
    : BBox N :=
  mkBBox (bb_x bb + translation translateX) (bb_y bb + translation translateY)
         (bb_width bb) (bb_height bb).

(** [!!this.rotation] *)
Definition isRotated (rotation : option N) : bool :=
  match rotation with
  | Some v => toBoolean v
  | None => false
  end.

(** The position and size handed to [renderer.rect]. [bb] is the result
    of [getBBox()] as it is handed out, before lines 73 and 74, [attr_x]
    and [attr_y] are [+this.attr('x')] and [+this.attr('y')]. *)
Definition borderRect (isFirefox : bool) (nodeName : string) (bb : BBox N)
    (translateX translateY rotation : option N) (attr_x attr_y : N)
    (margin : option N) : BBox N :=
  let pad := pick margin (lit 3) in
  let bb := mkBBox (bb_x bb + translation translateX)
                   (bb_y bb + translation translateY)
                   (bb_width bb) (bb_height bb) in
  let borderPosX := bb_x bb - pad in
  let borderPosY := bb_y bb - pad in
  let '(borderPosX, borderPosY) :=
    if String.eqb nodeName "text" then
      let isRotated := isRotated rotation in
      (attr_x - (bb_width bb * lit 0.5) - pad +
         (if isRotated then bb_height bb * lit 0.068 else lit 0),
       attr_y - (bb_height bb * lit 0.5) - pad +
         (if isRotated then lit 0
          else (- bb_height bb) * (if isFirefox then lit 0.25 else lit 0.068)))
    else (borderPosX, borderPosY) in
  mkBBox borderPosX borderPosY
         (bb_width bb + lit 2 * pad) (bb_height bb + lit 2 * pad).
End Geometry.

(** * Objects *)

(** [Highcharts.CSSObject], the three properties read here; [VUndefined]
    is an absent property. *)
Record CSSObject := {
  stroke : value;
  strokeWidth : value;
  borderRadius : value
}.

(** [style && style.p] *)
Definition style_and (p : CSSObject → value) (style : option CSSObject) : value :=
  match style with
  | Some st => p st
  | None => VUndefined
  end.

(** An [SVGElement] wrapper. References to other objects are keys into the
    store. *)
Record SVGElement := {
  element : option nat;        (* the DOM node *)
  bBox : BBox number;          (* what getBBox() returns *)
  cacheKey : option nat;       (* its key, if renderer.cache keeps the box *)
  translateX : option number;
  translateY : option number;
  rotation : option number;
  attr_x : number;             (* +this.attr('x') *)
  attr_y : number;             (* +this.attr('y') *)
  parentGroup : option nat;
  focusBorder : option nat     (* the rectangle drawn around it *)
}.

Definition set_focusBorder (fb : option nat) (el : SVGElement) : SVGElement :=
  {| element := element el; bBox := bBox el; cacheKey := cacheKey el;
     translateX := translateX el; translateY := translateY el;
     rotation := rotation el; attr_x := attr_x el; attr_y := attr_y el;
     parentGroup := parentGroup el; focusBorder := fb |}.

Definition set_bBox (bb : BBox number) (el : SVGElement) : SVGElement :=
  {| element := element el; bBox := bb; cacheKey := cacheKey el;
     translateX := translateX el; translateY := translateY el;
     rotation := rotation el; attr_x := attr_x el; attr_y := attr_y el;
     parentGroup := parentGroup el; focusBorder := focusBorder el |}.

(** A box object of the cache that was written to, as a wrapper sees it:
    the wrappers with its key are handed the written box from then on. *)
Definition share (k : nat) (bb : BBox number) (el : SVGElement) : SVGElement :=
  if decide (cacheKey el = Some k) then set_bBox bb el else el.

(** The [SVGElement] that [renderer.rect] returns, as far as this file
    acts on it. *)
Record Rect := {
  rect_box : BBox number;      (* x, y, width, height *)
  rect_r : number;             (* corner radius *)
  rect_class : list string;
  rect_attrs : gmap string value;
  rect_added : bool;
  rect_parent : option nat
}.

Inductive Listener :=
  | NoOp                       (* function (): void {} *)
  | Handler (id : nat).

Record DOMNode := {
  nodeName : string;
  focus : bool;                (* the node has a focus method *)
  hcEvents : option (gmap string (list Listener));
  outline : option string      (* style.outline *)
}.

Record FocusBorderStyleOptions := {
  color : value;
  lineWidth : value;
  style_borderRadius : value
}.

(** [options.accessibility.keyboardNavigation.focusBorder] *)
Record FocusBorderOptions := {
  enabled : bool;
  hideBrowserFocusOutline : bool;
  margin : option number;
  style : FocusBorderStyleOptions
}.

Record Chart := {
  options : FocusBorderOptions;
  focusElement : option nat
}.

(** What the host was asked to do, in order. *)
Inductive Effect :=
  | AddEventListener (node : nat) (type : string)
  | Focus (node : nat).

(** A chart with the objects of its renderer and of the document. *)
Record Store := {
  chart : Chart;
  elems : gmap nat SVGElement;
  nodes : gmap nat DOMNode;
  rects : gmap nat Rect;       (* the rectangles made and not destroyed *)
  nextRect : nat;
  styledMode : bool;           (* renderer.styledMode *)
  isFirefox : bool;            (* H.isFirefox *)
  trace : list Effect
}.

Definition set_chart (c : Chart) (s : Store) : Store :=
  {| chart := c; elems := elems s; nodes := nodes s; rects := rects s;
     nextRect := nextRect s; styledMode := styledMode s;
     isFirefox := isFirefox s; trace := trace s |}.

Definition set_elems (m : gmap nat SVGElement) (s : Store) : Store :=
  {| chart := chart s; elems := m; nodes := nodes s; rects := rects s;
     nextRect := nextRect s; styledMode := styledMode s;
     isFirefox := isFirefox s; trace := trace s |}.

Definition set_nodes (m : gmap nat DOMNode) (s : Store) : Store :=
  {| chart := chart s; elems := elems s; nodes := m; rects := rects s;
     nextRect := nextRect s; styledMode := styledMode s;
     isFirefox := isFirefox s; trace := trace s |}.

Definition set_rects (m : gmap nat Rect) (n : nat) (s : Store) : Store :=
  {| chart := chart s; elems := elems s; nodes := nodes s; rects := m;
     nextRect := n; styledMode := styledMode s;
     isFirefox := isFirefox s; trace := trace s |}.

Definition log (e : Effect) (s : Store) : Store :=
  {| chart := chart s; elems := elems s; nodes := nodes s; rects := rects s;
     nextRect := nextRect s; styledMode := styledMode s;
     isFirefox := isFirefox s; trace := trace s ++ [e] |}.

(** * Store-passing computations; [None] is a TypeError *)

Definition M (A : Type) : Type := Store → option (A * Store).

Definition ret {A : Type} (a : A) : M A := λ s, Some (a, s).

Definition bind {A B : Type} (m : M A) (k : A → M B) : M B :=
  λ s, match m s with
       | Some (a, s') => k a s'
       | None => None
       end.

Notation "'let*' x ':=' m 'in' k" := (bind m (λ x, k))
  (at level 10, x name, m at level 100, k at level 200).

Definition gets {A : Type} (f : Store → A) : M A := λ s, Some (f s, s).

Definition modify (f : Store → Store) : M unit := λ s, Some (tt, f s).

Definition deref {A : Type} (heap : Store → gmap nat A) (k : nat) : M A :=
  λ s, match heap s !! k with
       | Some a => Some (a, s)
       | None => None
       end.

Definition getElement : nat → M SVGElement := deref elems.
Definition getNode : nat → M DOMNode := deref nodes.

Definition setElement (k : nat) (el : SVGElement) : M unit :=
  modify (λ s, set_elems (<[k := el]> (elems s)) s).

Definition setNode (k : nat) (nd : DOMNode) : M unit :=
  modify (λ s, set_nodes (<[k := nd]> (nodes s)) s).

Definition throw {A : Type} : M A := λ _, None.

(** * The renderer and the host *)

Definition update_rect (k : nat) (f : Rect → Rect) : M unit :=
  modify (λ s, set_rects (alter f k (rects s)) (nextRect s) s).

(** Modelled from the spec: the corner radius a rectangle of
    [SVGRenderer#rect] has for the radius it is given, "defaulting to 0
    when absent or non-numeric": a radius of 0 or NaN rounds no corner. *)
Definition corner_radius (r : number) : number :=
  if toBoolean r then r else lit 0.

(** Modelled from the spec: [SVGRenderer#rect], which is not in this file;
    a new rectangle with the given position, size and corner radius, not
    yet part of the document. *)
Definition renderer_rect (box : BBox number) (r : number) : M nat :=
  λ s, let k := nextRect s in
       let rc := {| rect_box := box;
                    rect_r := corner_radius r;
                    rect_class := [];
                    rect_attrs := ∅; rect_added := false;
                    rect_parent := None |} in
       Some (k, set_rects (<[k := rc]> (rects s)) (S k) s).

(** Modelled from the spec: [SVGElement#addClass], which is not in this
    file; tags the element with a class. *)
Definition addClass (k : nat) (c : string) : M unit :=
  update_rect k (λ rc,
    {| rect_box := rect_box rc; rect_r := rect_r rc;
       rect_class := rect_class rc ++ [c]; rect_attrs := rect_attrs rc;
       rect_added := rect_added rc; rect_parent := rect_parent rc |}).

(** Modelled from the spec: [SVGElement#attr] as a setter, which is not
    in this file; every key of the hash becomes an attribute. *)
Definition attr (k : nat) (hash : list (string * value)) : M unit :=
  update_rect k (λ rc,
    {| rect_box := rect_box rc; rect_r := rect_r rc;
       rect_class := rect_class rc;
       rect_attrs := foldl (λ m kv, <[kv.1 := kv.2]> m) (rect_attrs rc) hash;
       rect_added := rect_added rc; rect_parent := rect_parent rc |}).

(** Modelled from the spec: [SVGElement#add], which is not in this file;
    attaches the element as a child of the given group. *)
Definition add_to (k : nat) (parent : option nat) : M unit :=
  update_rect k (λ rc,
    {| rect_box := rect_box rc; rect_r := rect_r rc;
       rect_class := rect_class rc; rect_attrs := rect_attrs rc;
       rect_added := true; rect_parent := parent |}).

(** Modelled from the spec: [SVGElement#destroy], which is not in this
    file; the rectangle is gone from the document. *)
Definition destroy (k : nat) : M unit :=
  modify (λ s, set_rects (delete k (rects s)) (nextRect s) s).

(** Modelled from the spec: [SVGElement#getBBox], which is not in this
    file; the bounding box of the wrapper's DOM node, a TypeError without
    one. For a wrapper with a cache key the object handed out is the one
    kept in [renderer.cache] under that key, which every wrapper with the
    key is handed; without a key it is a new object of the caller's own. *)
Definition getBBox (this : nat) : M (BBox number) :=
  let* el := getElement this in
  match element el with
  | Some _ => ret (bBox el)
  | None => throw
  end.

(** A write to the object that [getBBox()] handed out to [this]: a cached
    object keeps it, for every wrapper it is handed to; the caller's own
    is gone with the call. *)
Definition write_bBox (this : nat) (bb : BBox number) : M unit :=
  let* el := getElement this in
  match cacheKey el with
  | Some k => modify (λ s, set_elems (share k bb <$> elems s) s)
  | None => ret tt
  end.

(** [hcEvents && hcEvents.focusin]: any registered array is truthy. *)
Definition has_listeners (type : string) (nd : DOMNode) : bool :=
  match hcEvents nd with
  | Some events => bool_decide (is_Some (events !! type))
  | None => false
  end.

Definition listeners (type : string) (nd : DOMNode) : list Listener :=
  match hcEvents nd with
  | Some events => default [] (events !! type)
  | None => []
  end.

(** Modelled from the spec: [addEvent] of parts/Utilities.js, which is not
    in this file; registers the listener with the host and appends it to
    the node's [hcEvents] under its type. *)
Definition addEvent (k : nat) (type : string) (fn : Listener) : M unit :=
  let* nd := getNode k in
  let events := default ∅ (hcEvents nd) in
  let* _ := setNode k
    {| nodeName := nodeName nd; focus := focus nd;
       hcEvents := Some (<[type := default [] (events !! type) ++ [fn]]> events);
       outline := outline nd |} in
  modify (log (AddEventListener k type)).

(** [node.focus()] *)
Definition node_focus (k : nat) : M unit := modify (log (Focus k)).

(** [node.style.outline = v] *)
Definition set_outline (k : nat) (v : string) : M unit :=
  let* nd := getNode k in
  setNode k {| nodeName := nodeName nd; focus := focus nd;
               hcEvents := hcEvents nd; outline := Some v |}.

(** * The three methods *)

(** [SVGElement#removeFocusBorder] *)
Definition removeFocusBorder (this : nat) : M unit :=
  let* el := getElement this in
  match focusBorder el with
  | Some fb =>
      let* _ := destroy fb in
      setElement this (set_focusBorder None el)
  | None => ret tt
  end.

(** [SVGElement#addFocusBorder] *)
Definition addFocusBorder (this : nat) (margin : option number)
    (style : option CSSObject) : M unit :=
  let* el := getElement this in
  let* _ := match focusBorder el with
            | Some _ => removeFocusBorder this
            | None => ret tt
            end in
  let* bb := getBBox this in
  let* el := getElement this in
  (* lines 73 and 74 assign to [bb.x] and [bb.y] *)
  let* _ := write_bBox this (translated bb (translateX el) (translateY el)) in
  let* el := getElement this in
  let* nd := match element el with Some d => getNode d | None => throw end in
  let* firefox := gets isFirefox in
  let box := borderRect firefox (nodeName nd) bb (translateX el)
               (translateY el) (rotation el) (attr_x el) (attr_y el) margin in
  let* radius :=
    match toString (js_or (style_and borderRadius style) (VNumber (lit 0))) with
    | Some str => ret (parseInt str)
    | None => throw
    end in
  let* fb := renderer_rect box radius in
  let* _ := addClass fb "highcharts-focus-border" in
  let* _ := attr fb [("zIndex", VNumber (lit 99))] in
  let* _ := add_to fb (parentGroup el) in
  let* _ := setElement this (set_focusBorder (Some fb) el) in
  let* styled := gets styledMode in
  if negb styled then
    attr fb [("stroke", style_and stroke style);
             ("stroke-width", style_and strokeWidth style)]
  else ret tt.

(** [Chart#setFocusToElement], lines 148 to 168: set browser focus if
    possible. *)
Definition setBrowserFocus (focusBorderOptions : FocusBorderOptions)
    (browserFocusElement : option nat) : M unit :=
  match browserFocusElement with
  | Some d =>
      let* nd := getNode d in
      if focus nd then
        let* _ := if has_listeners "focusin" nd then ret tt
                  else addEvent d "focusin" NoOp in
        let* _ := node_focus d in
        if hideBrowserFocusOutline focusBorderOptions
        then set_outline d "none"
        else ret tt
      else ret tt
  | None => ret tt
  end.

(** [focusElement || svgElement.element] *)
Definition browserFocusElement (focusElement' : option nat) (el : SVGElement)
    : option nat :=
  match focusElement' with
  | Some d => Some d
  | None => element el
  end.

(** Lines 175 to 179: the style object handed to [addFocusBorder]. *)
Definition focusBorderStyle (focusBorderOptions : FocusBorderOptions)
    : CSSObject :=
  {| stroke := color (style focusBorderOptions);
     strokeWidth := lineWidth (style focusBorderOptions);
     borderRadius := style_borderRadius (style focusBorderOptions) |}.

(** [Chart#setFocusToElement] *)
Definition setFocusToElement (svgElement : nat) (focusElement' : option nat)
    : M unit :=
  let* focusBorderOptions := gets (λ s, options (chart s)) in
  let* el := getElement svgElement in
  let* _ := setBrowserFocus focusBorderOptions
              (browserFocusElement focusElement' el) in
  if enabled focusBorderOptions then
    let* old := gets (λ s, focusElement (chart s)) in
    let* _ := match old with
              | Some e => removeFocusBorder e
              | None => ret tt
              end in
    let* _ := addFocusBorder svgElement (margin focusBorderOptions)
                (Some (focusBorderStyle focusBorderOptions)) in
    modify (λ s, set_chart {| options := options (chart s);
                              focusElement := Some svgElement |} s)
  else ret tt.

(** * Vocabulary of the statements *)

(** The rectangle an element owns: its [focusBorder] property. *)
Definition owned (s : Store) (e : nat) : option nat :=
  match elems s !! e with
  | Some el => focusBorder el
  | None => None
  end.

(** The owned rectangle as it stands in the document. *)
Definition overlay (s : Store) (e : nat) : option Rect :=
  match owned s e with
  | Some k => rects s !! k
  | None => None
  end.

(** The fifth argument of [renderer.rect] in [addFocusBorder]. *)
Definition radius (style : option CSSObject) : number :=
  parseInt (default "" (toString
    (js_or (style_and borderRadius style) (VNumber (lit 0))))).

(** The rectangle [addFocusBorder] draws for an element [el] with DOM node
    [nd]. *)
Definition border (s : Store) (el : SVGElement) (nd : DOMNode)
    (margin : option number) (style : option CSSObject) : Rect :=
  {| rect_box := borderRect (isFirefox s) (nodeName nd) (bBox el)
                   (translateX el) (translateY el) (rotation el)
                   (attr_x el) (attr_y el) margin;
     rect_r := corner_radius (radius style);
     rect_class := ["highcharts-focus-border"];
     rect_attrs :=
       if styledMode s then <["zIndex" := VNumber (lit 99)]> ∅
       else <["stroke-width" := style_and strokeWidth style]>
              (<["stroke" := style_and stroke style]>
                 (<["zIndex" := VNumber (lit 99)]> ∅));
     rect_added := true;
     rect_parent := parentGroup el |}.

(** References resolve, as they do between live JavaScript objects: every
    wrapper has its DOM node and the chart's focus element is a wrapper. *)
Definition wf (s : Store) : Prop :=
  (∀ e el, elems s !! e = Some el →
     ∃ d, element el = Some d ∧ is_Some (nodes s !! d))
  ∧ (∀ e, focusElement (chart s) = Some e → is_Some (elems s !! e)).

(** The arguments of a call of [setFocusToElement] are objects of the
    store. *)
Definition callable (s : Store) (svgElement : nat) (focusElement' : option nat)
    : Prop :=
  is_Some (elems s !! svgElement)
  ∧ ∀ d, focusElement' = Some d → is_Some (nodes s !! d).

(** The chart's options are replaced (a chart update). *)
Definition set_options (o : FocusBorderOptions) (s : Store) : Store :=
  set_chart {| options := o; focusElement := focusElement (chart s) |} s.

(** A chart as created: nothing focused, nothing drawn. *)
Definition initial (s : Store) : Prop :=
  wf s ∧ focusElement (chart s) = None ∧ rects s = ∅
  ∧ ∀ e, owned s e = None.

(** What this file lets happen to a chart: focus is set, options change. *)
Inductive step : Store → Store → Prop :=
  | step_focus s svgElement focusElement' s' :
      callable s svgElement focusElement' →
      setFocusToElement svgElement focusElement' s = Some (tt, s') →
      step s s'
  | step_options s o :
      step s (set_options o s).

Inductive reachable : Store → Prop :=
  | reachable_initial s : initial s → reachable s
  | reachable_step s s' : reachable s → step s s' → reachable s'.

(** The focus target is the one owner, of the one rectangle. *)
Definition single_border (s : Store) : Prop :=
  (∀ e k, owned s e = Some k → focusElement (chart s) = Some e)
  ∧ (∀ k, is_Some (rects s !! k) →
       ∃ e, focusElement (chart s) = Some e ∧ owned s e = Some k).

(** [delete] under an optional key, and clearing the [focusBorder] of an
    optional element: what removing a border does to the two heaps. *)
Definition erase (k : option nat) (m : gmap nat Rect) : gmap nat Rect :=
  match k with
  | Some k => delete k m
  | None => m
  end.

Definition disown (e : option nat) (m : gmap nat SVGElement)
    : gmap nat SVGElement :=
  match e with
  | Some e => alter (set_focusBorder None) e m
  | None => m
  end.

(** What lines 73 and 74 leave of the element, and of the elements of the
    store: with a cache key the box is moved by the offsets, for every
    wrapper with that key. *)
Definition shifted (el : SVGElement) : SVGElement :=
  match cacheKey el with
  | Some _ => set_bBox (translated (bBox el) (translateX el) (translateY el)) el
  | None => el
  end.

Definition shift_bBox (el : SVGElement) (m : gmap nat SVGElement)
    : gmap nat SVGElement :=
  match cacheKey el with
  | Some k =>
      share k (translated (bBox el) (translateX el) (translateY el)) <$> m
  | None => m
  end.



(** A translation offset that is absent or falsy. *)
Definition no_offset (t : option number) : Prop :=
  ∀ n, t = Some n → toBoolean n = false.

(** Only the renderer's side moved between [s] and [s']. *)
Definition renderer_only (s s' : Store) : Prop :=
  chart s' = chart s ∧ nodes s' = nodes s ∧ trace s' = trace s
  ∧ styledMode s' = styledMode s ∧ isFirefox s' = isFirefox s.

(** Only the document's side moved, and no node changed its name. *)
Definition document_only (s s' : Store) : Prop :=
  chart s' = chart s ∧ elems s' = elems s ∧ rects s' = rects s
  ∧ nextRect s' = nextRect s
  ∧ styledMode s' = styledMode s ∧ isFirefox s' = isFirefox s
  ∧ ∀ d, nodeName <$> nodes s' !! d = nodeName <$> nodes s !! d.

(** * A small chart to run the methods on *)

(** The default focus-border options, with a margin of 3. *)
Definition example_options : FocusBorderOptions :=
  {| enabled := true;
     hideBrowserFocusOutline := true;
     margin := Some (lit 3);
     style := {| color := VString "#335cad";
                 lineWidth := VNumber (lit 2);
                 style_borderRadius := VNumber (lit 3) |} |}.

(** A shape with bounding box (10, 20, 30, 5), translated by 5 along x. *)
Definition example_shape : SVGElement :=
  {| element := Some 0%nat;
     bBox := mkBBox (lit 10) (lit 20) (lit 30) (lit 5);
     cacheKey := None;
     translateX := Some (lit 5);
     translateY := Some (lit 0);
     rotation := None;
     attr_x := lit 10;
     attr_y := lit 20;
     parentGroup := Some 7%nat;
     focusBorder := None |}.

(** A text of width 40 and height 10 at x = 100, y = 50, not rotated; its
    box is kept in the cache. *)
Definition example_text : SVGElement :=
  {| element := Some 1%nat;
     bBox := mkBBox (lit 80) (lit 42) (lit 40) (lit 10);
     cacheKey := Some 0%nat;
     translateX := None;
     translateY := None;
     rotation := None;
     attr_x := lit 100;
     attr_y := lit 50;
     parentGroup := Some 7%nat;
     focusBorder := None |}.

Definition example_node (name : string) : DOMNode :=
  {| nodeName := name; focus := true; hcEvents := None; outline := None |}.

Definition example_store (firefox : bool) : Store :=
  {| chart := {| options := example_options; focusElement := None |};
     elems := <[1%nat := example_text]> (<[0%nat := example_shape]> ∅);
     nodes := <[1%nat := example_node "text"]>
                (<[0%nat := example_node "path"]> ∅);
     rects := ∅;
     nextRect := 0;
     styledMode := false;
     isFirefox := firefox;
     trace := [] |}.

(** The same chart with focus borders switched off. *)
Definition example_disabled_store : Store :=
  set_options {| enabled := false; hideBrowserFocusOutline := true;
                 margin := None; style := style example_options |}
    (example_store false).


(** The rational [q] as a number. *)
Definition exact (q : Q) : number := Num (Qred q).

(** [n] is the rational [q], in some representation. *)
Definition represents (n : number) (q : Q) : Prop :=
  ∃ a, n = Num a ∧ (a == q)%Q.

(** "Rotated": the rotation is there and not zero. *)
Definition rotated (rotation : option Q) : bool :=
  match rotation with
  | Some r => negb (Qeq_bool r 0)
  | None => false
  end.

(** * Vocabulary of the further properties *)

(** The browser focus element after lines 155 to 167 ran on it. *)
Definition focused_node (hide : bool) (nd : DOMNode) : DOMNode :=
  {| nodeName := nodeName nd;
     focus := focus nd;
     hcEvents := if has_listeners "focusin" nd then hcEvents nd
                 else Some (<["focusin" := [NoOp]]> (default ∅ (hcEvents nd)));
     outline := if hide then Some "none" else outline nd |}.

(** What lines 155 to 162 ask of the host for node [d]. *)
Definition focus_effects (d : nat) (nd : DOMNode) : list Effect :=
  (if has_listeners "focusin" nd then [] else [AddEventListener d "focusin"])
  ++ [Focus d].

(** The element somewhere else: another bounding-box origin, other
    translation offsets. *)
Definition move_to (x y : number) (tx ty : option number) (el : SVGElement)
    : SVGElement :=
  {| element := element el;
     bBox := mkBBox x y (bb_width (bBox el)) (bb_height (bBox el));
     cacheKey := cacheKey el;
     translateX := tx; translateY := ty; rotation := rotation el;
     attr_x := attr_x el; attr_y := attr_y el;
     parentGroup := parentGroup el; focusBorder := focusBorder el |}.

(** The same chart in another browser. *)
Definition set_isFirefox (b : bool) (s : Store) : Store :=
  {| chart := chart s; elems := elems s; nodes := nodes s; rects := rects s;
     nextRect := nextRect s; styledMode := styledMode s;
     isFirefox := b; trace := trace s |}.

(** The focus element, when there is one, owns the only rectangle, which is
    a focus border in the document; without one nothing is drawn. *)
Definition focus_owns_border (s : Store) : Prop :=
  match focusElement (chart s) with
  | Some e => ∃ k rc, owned s e = Some k ∧ rects s = {[k := rc]}
                ∧ rect_class rc = ["highcharts-focus-border"]
                ∧ rect_added rc = true
  | None => rects s = ∅ ∧ ∀ e, owned s e = None
  end.

(** A node that cannot take focus. *)
Definition example_inert_node : DOMNode :=
  {| nodeName := "desc"; focus := false; hcEvents := None; outline := None |}.

(** The example chart with such a node in its document. *)
Definition example_inert_store : Store :=
  set_nodes (<[2%nat := example_inert_node]> (nodes (example_store false)))
    (example_store false).

(** A wrapper that has lost its DOM node, as after [destroy]. *)
Definition example_detached : SVGElement :=
  {| element := None;
     bBox := bBox example_shape;
     cacheKey := None;
     translateX := translateX example_shape;
     translateY := translateY example_shape;
     rotation := rotation example_shape;
     attr_x := attr_x example_shape;
     attr_y := attr_y example_shape;
     parentGroup := parentGroup example_shape;
     focusBorder := None |}.

Definition example_detached_store : Store :=
  set_elems (<[2%nat := example_detached]> (elems (example_store false)))
    (example_store false).

(** The shape with offsets that are there but falsy: NaN and 0. *)
Definition example_adrift : SVGElement :=
  move_to (lit 10) (lit 20) (Some NaN) (Some (lit 0)) example_shape.

Definition example_adrift_store : Store :=
  set_elems (<[0%nat := example_adrift]> (elems (example_store false)))
    (example_store false).

(** The same chart with another flag for styled mode. *)
Definition set_styledMode (b : bool) (s : Store) : Store :=
  {| chart := chart s; elems := elems s; nodes := nodes s; rects := rects s;
     nextRect := nextRect s; styledMode := b;
     isFirefox := isFirefox s; trace := trace s |}.

(** A style argument with a stroke and a stroke width. *)
Definition example_stroke_style : CSSObject :=
  {| stroke := VString "#335cad"; strokeWidth := VNumber (lit 2);
     borderRadius := VNumber (lit 3) |}.

(** An HTML label: not a text node, its box (10, 20, 30, 5) kept in the
    cache, translated by 5 along x. *)
Definition example_label : SVGElement :=
  {| element := Some 2%nat;
     bBox := mkBBox (lit 10) (lit 20) (lit 30) (lit 5);
     cacheKey := Some 1%nat;
     translateX := Some (lit 5);
     translateY := Some (lit 0);
     rotation := None;
     attr_x := lit 10;
     attr_y := lit 20;
     parentGroup := Some 7%nat;
     focusBorder := None |}.

(** The example chart with the label, and with a second wrapper of the
    same text, which shares the label's box. *)
Definition example_label_store : Store :=
  set_nodes (<[2%nat := example_node "SPAN"]> (nodes (example_store false)))
    (set_elems (<[3%nat := example_label]>
                  (<[2%nat := example_label]> (elems (example_store false))))
       (example_store false)).

(** A node whose focusin listeners were all removed: [removeEvent] leaves
    the emptied array in [hcEvents]. *)
Definition example_emptied_node : DOMNode :=
  {| nodeName := "path"; focus := true;
     hcEvents := Some (<["focusin" := []]> ∅); outline := None |}.

Definition example_emptied_store : Store :=
  set_nodes (<[0%nat := example_emptied_node]> (nodes (example_store false)))
    (example_store false).

(** The example chart after focus was set to the shape. *)
Definition example_focused_store : Store :=
  match setFocusToElement 0 None (example_store false) with
  | Some (_, s) => s
  | None => example_store false
  end.

(** * Numbers written and read back *)

Example Number_toString_examples :
  Number_toString (lit 3) = "3"
  ∧ Number_toString (lit 2.5) = "2.5"
  ∧ Number_toString (lit (-42)) = "-42"
  ∧ Number_toString (lit 0.068) = "0.068"
  ∧ Number_toString (lit 1000000000000000000000) = "1e+21"
  ∧ Number_toString (lit 0.0000001) = "1e-7"
  ∧ Number_toString NaN = "NaN".
Proof. repeat split; vm_compute; reflexivity. Qed.

Example parseInt_examples :
  parseInt "3" = lit 3
  ∧ parseInt "3px" = lit 3
  ∧ parseInt "  -12.5" = Num (inject_Z (-12))
  ∧ parseInt "1e+21" = lit 1
  ∧ parseInt "none" = NaN
  ∧ parseInt "" = NaN.
Proof. repeat split; vm_compute; reflexivity. Qed.

Lemma digit_value_char d :
  (d < 10)%N → digit_value (pretty_N_char d) = Some (Z.of_N d).
Proof.
  intros Hd.
  assert (d = 0 ∨ d = 1 ∨ d = 2 ∨ d = 3 ∨ d = 4 ∨ d = 5 ∨ d = 6 ∨ d = 7
          ∨ d = 8 ∨ d = 9)%N as Hcases by lia.
  by repeat destruct Hcases as [->|Hcases]; [..|subst d].
Qed.

Lemma pretty_Z_pos z : 0 < z → pretty z = pretty_N_go (Z.to_N z) "".
Proof.
  destruct z as [|p|p]; [lia| |lia]. intros _. cbn.
  unfold pretty, pretty_positive, pretty, pretty_N. by rewrite decide_False.
Qed.

(** Reading back the digits that [pretty] writes. *)
Lemma digits_prefix_pretty_go x s :
  (0 < x)%N →
  digits_prefix (pretty_N_go x s) None = digits_prefix s (Some (Z.of_N x)).
Proof.
  revert s. induction (N.lt_wf_0 x) as [x _ IH]. intros s Hx.
  rewrite pretty_N_go_step by done.
  assert (x `mod` 10 < 10)%N as Hmod by (by apply N.mod_lt).
  pose proof (N.div_mod x 10 ltac:(done)) as Hdm.
  destruct (decide (x `div` 10 = 0)%N) as [Hz|Hnz].
  - rewrite Hz, pretty_N_go_0. cbn. rewrite digit_value_char by done.
    cbn [default]. f_equal. f_equal. rewrite Hz in Hdm. lia.
  - rewrite IH; [|apply N.div_lt; lia|by apply N.neq_0_lt_0]. cbn.
    rewrite digit_value_char by done.
    cbn [default]. f_equal. f_equal. lia.
Qed.

Lemma pretty_go_app x s t :
  pretty_N_go x s +:+ t = pretty_N_go x (s +:+ t).
Proof.
  revert s. induction (N.lt_wf_0 x) as [x _ IH]. intros s.
  destruct (decide (0 < x)%N) as [Hx|Hx].
  - rewrite (pretty_N_go_step x s), (pretty_N_go_step x (s +:+ t)) by done.
    by rewrite IH by (apply N.div_lt; lia).
  - assert (x = 0%N) as -> by lia. by rewrite !pretty_N_go_0.
Qed.

Lemma pretty_go_head x s :
  (0 < x)%N →
  ∃ d rest, (d < 10)%N ∧ pretty_N_go x s = String (pretty_N_char d) rest.
Proof.
  revert s. induction (N.lt_wf_0 x) as [x _ IH]. intros s Hx.
  rewrite pretty_N_go_step by done.
  destruct (decide (x `div` 10 = 0)%N) as [Hz|Hnz].
  - rewrite Hz, pretty_N_go_0. eexists _, _. split; [|done]. by apply N.mod_lt.
  - apply IH; [apply N.div_lt; lia|by apply N.neq_0_lt_0].
Qed.

(** The number of digits tells the magnitude. *)
Lemma pretty_go_length x s :
  (0 < x)%N →
  ∃ L : nat, String.length (pretty_N_go x s) = (L + String.length s)%nat
    ∧ (1 ≤ L)%nat
    ∧ 10 ^ (Z.of_nat L - 1) ≤ Z.of_N x < 10 ^ Z.of_nat L.
Proof.
  revert s. induction (N.lt_wf_0 x) as [x _ IH]. intros s Hx.
  rewrite pretty_N_go_step by done.
  pose proof (N.div_mod x 10 ltac:(done)) as Hdm.
  pose proof (N.mod_lt x 10 ltac:(done)) as Hmod.
  destruct (decide (x `div` 10 = 0)%N) as [Hz|Hnz].
  - rewrite Hz, pretty_N_go_0. rewrite Hz in Hdm. exists 1%nat.
    split; [done|]. split; [done|]. change (1 ≤ Z.of_N x < 10). lia.
  - destruct (IH (x `div` 10)%N ltac:(apply N.div_lt; lia)
                (String (pretty_N_char (x `mod` 10)) s)
                ltac:(by apply N.neq_0_lt_0))
      as (L & Hlen & HL & Hlo & Hhi).
    exists (S L). split; [rewrite Hlen; cbn; lia|]. split; [lia|].
    replace (Z.of_nat (S L) - 1) with (Z.succ (Z.of_nat L - 1)) by lia.
    replace (Z.of_nat (S L)) with (Z.succ (Z.of_nat L)) by lia.
    rewrite !Z.pow_succ_r by lia.
    generalize dependent (10 ^ (Z.of_nat L - 1)).
    generalize dependent (10 ^ Z.of_nat L).
    generalize dependent (x `div` 10)%N. generalize dependent (x `mod` 10)%N.
    intros. lia.
Qed.

Lemma strip_zeros_spec fuel s :
  0 < s < 10 ^ Z.of_nat fuel →
  ∃ j : nat, strip_zeros fuel s * 10 ^ Z.of_nat j = s
    ∧ 0 < strip_zeros fuel s
    ∧ strip_zeros fuel s mod 10 ≠ 0.
Proof.
  revert s. induction fuel as [|fuel IH]; intros s [Hpos Hlt].
  { change (10 ^ Z.of_nat 0) with 1 in Hlt. lia. }
  cbn [strip_zeros]. rewrite (proj2 (Z.ltb_lt 0 s) Hpos). cbn [andb].
  destruct (Z.eqb_spec (s mod 10) 0) as [Hz|Hnz].
  - pose proof (Z.div_mod s 10 ltac:(done)) as Hdm.
    rewrite Nat2Z.inj_succ, Z.pow_succ_r in Hlt by lia.
    destruct (IH (s / 10)) as (j & Hj & Hp & Hm); [lia|].
    exists (S j). rewrite Nat2Z.inj_succ, Z.pow_succ_r by lia.
    split; [|done]. rewrite Z.mul_assoc, (Z.mul_comm _ 10), <- Z.mul_assoc, Hj. lia.
  - exists 0%nat. split; [|done]. change (10 ^ Z.of_nat 0) with 1. lia.
Qed.

Lemma digits_prefix_zeros m v :
  digits_prefix (zeros m) (Some v) = Some (v * 10 ^ Z.of_nat m).
Proof.
  revert v. induction m as [|m IH]; intros v.
  { cbn. f_equal. lia. }
  cbn [zeros digits_prefix]. change (digit_value "0") with (Some 0).
  cbn [default]. rewrite IH, Nat2Z.inj_succ, Z.pow_succ_r by lia.
  f_equal. unfold id. ring.
Qed.

Lemma pow10_digits_unique v k l :
  0 ≤ k → 0 ≤ l →
  10 ^ (k - 1) ≤ v < 10 ^ k → 10 ^ (l - 1) ≤ v < 10 ^ l → k = l.
Proof.
  intros Hk Hl [Hk1 Hk2] [Hl1 Hl2].
  destruct (Z.lt_trichotomy k l) as [Hlt|[->|Hgt]]; [|done|].
  - assert (10 ^ k ≤ 10 ^ (l - 1)) by (apply Z.pow_le_mono_r; clear -Hlt; lia).
    generalize dependent (10 ^ k). generalize dependent (10 ^ (l - 1)).
    intros. lia.
  - assert (10 ^ l ≤ 10 ^ (k - 1)) by (apply Z.pow_le_mono_r; clear -Hgt; lia).
    generalize dependent (10 ^ l). generalize dependent (10 ^ (k - 1)).
    intros. lia.
Qed.

Lemma digit_head_plain d rest :
  (d < 10)%N →
  trim_start (String (pretty_N_char d) rest) = String (pretty_N_char d) rest
  ∧ sign_split (String (pretty_N_char d) rest) = (1, String (pretty_N_char d) rest).
Proof.
  intros Hd.
  assert (d = 0 ∨ d = 1 ∨ d = 2 ∨ d = 3 ∨ d = 4 ∨ d = 5 ∨ d = 6 ∨ d = 7
          ∨ d = 8 ∨ d = 9)%N as Hcases by lia.
  by repeat destruct Hcases as [->|Hcases]; [..|subst d].
Qed.

(** A stripped significand times a power of ten that equals [a] times a
    power of ten has absorbed all the zeros that were appended to [a]. *)
Lemma stripped_absorbs sig a (j i : nat) :
  sig mod 10 ≠ 0 →
  sig * 10 ^ Z.of_nat j = a * 10 ^ Z.of_nat i →
  ∃ m : nat, j = (m + i)%nat ∧ sig * 10 ^ Z.of_nat m = a.
Proof.
  revert j. induction i as [|i IH]; intros j Hmod Heq.
  { exists j. split; [lia|]. rewrite Heq. change (10 ^ Z.of_nat 0) with 1. lia. }
  destruct j as [|j].
  { exfalso. apply Hmod. change (10 ^ Z.of_nat 0) with 1 in Heq.
    rewrite Nat2Z.inj_succ, Z.pow_succ_r in Heq by lia.
    rewrite Z.mul_1_r in Heq. rewrite Heq.
    rewrite (Z.mul_comm 10), Z.mul_assoc. apply Z.mod_mul. done. }
  rewrite !Nat2Z.inj_succ, !Z.pow_succ_r in Heq by lia.
  destruct (IH j Hmod) as (m & -> & Hm).
  { apply (Z.mul_reg_l _ _ 10); [done|]. rewrite !Z.mul_assoc in *.
    rewrite (Z.mul_comm 10 sig), (Z.mul_comm 10 a). done. }
  exists m. split; [lia|done].
Qed.

Lemma ndigits_spec p :
  ∃ L : nat, ndigits (Zpos p) = Z.of_nat L ∧ (1 ≤ L)%nat
    ∧ 10 ^ (Z.of_nat L - 1) ≤ Zpos p < 10 ^ Z.of_nat L.
Proof.
  destruct (pretty_go_length (Npos p) "" ltac:(done)) as (L & Hlen & HL & Hb).
  exists L. split; [|done]. unfold ndigits. rewrite pretty_Z_pos by done.
  cbn [Z.to_N]. rewrite Hlen. cbn. lia.
Qed.

(** An integer below 10^21 is written in full, and read back. *)
Lemma positive_toString_integer (a : positive) :
  Zpos a < 10 ^ 21 →
  ∃ d rest, (d < 10)%N
    ∧ positive_toString (Zpos a) 1 = String (pretty_N_char d) rest
    ∧ digits_prefix (positive_toString (Zpos a) 1) None = Some (Zpos a).
Proof.
  intros Ha.
  destruct (ndigits_spec a) as (L & HndL & HL1 & HLlo & HLhi).
  assert (Z.of_nat L ≤ 21) as HL21.
  { destruct (Z.le_gt_cases (Z.of_nat L) 21) as [|Hgt]; [done|]. exfalso.
    assert (10 ^ 21 ≤ 10 ^ (Z.of_nat L - 1)) by (apply Z.pow_le_mono_r; lia).
    generalize dependent (10 ^ (Z.of_nat L - 1)). intros. lia. }
  assert (decimal_exponent (Zpos a) 1 = Z.of_nat L) as Hn.
  { unfold decimal_exponent. rewrite HndL. change (ndigits 1) with 1.
    rewrite (proj2 (Z.leb_le 0 (Z.of_nat L - 1))) by lia.
    rewrite (proj2 (Z.leb_le (1 * 10 ^ (Z.of_nat L - 1)) (Zpos a))) by lia. lia. }
  unfold positive_toString. rewrite Hn.
  set (i := Z.to_nat (21 - Z.of_nat L)).
  assert (significand (Zpos a) 1 (Z.of_nat L)
          = strip_zeros 21 (Zpos a * 10 ^ Z.of_nat i)) as Hsig.
  { unfold significand. rewrite (proj2 (Z.leb_le 0 _)) by lia.
    rewrite Z.div_1_r. unfold i. by rewrite Z2Nat.id by lia. }
  rewrite Hsig.
  assert (0 < Zpos a * 10 ^ Z.of_nat i < 10 ^ Z.of_nat 21) as Hs0.
  { assert (10 ^ Z.of_nat 21 = 10 ^ Z.of_nat L * 10 ^ Z.of_nat i) as ->.
    { rewrite <- Z.pow_add_r by lia. f_equal. unfold i. lia. }
    assert (0 < 10 ^ Z.of_nat i) by (apply Z.pow_pos_nonneg; lia).
    split; [lia|]. apply Z.mul_lt_mono_pos_r; [done|]. lia. }
  destruct (strip_zeros_spec 21 _ Hs0) as (j & Hj & Hpos & Hmod).
  set (sig := strip_zeros 21 (Zpos a * 10 ^ Z.of_nat i)) in *.
  destruct (stripped_absorbs sig (Zpos a) j i Hmod Hj) as (m & -> & Hm).
  destruct (pretty_go_length (Z.to_N sig) "" ltac:(lia))
    as (k & Hlenk & Hk1 & Hklo & Hkhi).
  rewrite Z2N.id in Hklo, Hkhi by lia.
  rewrite pretty_Z_pos by done. rewrite Hlenk. cbn [String.length]. rewrite Nat.add_0_r.
  assert (Z.of_nat L = Z.of_nat k + Z.of_nat m) as HLk.
  { apply (pow10_digits_unique (Zpos a)); [lia|lia|lia|].
    rewrite <- Hm.
    replace (Z.of_nat k + Z.of_nat m - 1) with (Z.of_nat k - 1 + Z.of_nat m) by lia.
    rewrite !Z.pow_add_r by lia.
    assert (0 < 10 ^ Z.of_nat m) by (apply Z.pow_pos_nonneg; lia).
    split; [apply Z.mul_le_mono_nonneg_r; lia|apply Z.mul_lt_mono_pos_r; lia]. }
  rewrite (proj2 (Z.leb_le (Z.of_nat k) (Z.of_nat L))) by lia.
  rewrite (proj2 (Z.leb_le (Z.of_nat L) 21)) by lia. cbn [andb].
  replace (Z.to_nat (Z.of_nat L - Z.of_nat k)) with m by lia.
  rewrite pretty_go_app. change ("" +:+ zeros m) with (zeros m).
  destruct (pretty_go_head (Z.to_N sig) (zeros m) ltac:(lia)) as (d & rest & Hd & Hhead).
  exists d, rest. split; [done|]. split; [done|].
  rewrite digits_prefix_pretty_go by lia.
  rewrite digits_prefix_zeros, Z2N.id by lia. by rewrite Hm.
Qed.

(** A nonzero integer below 10^21 in magnitude, written by
    [Number::toString] and read by [parseInt], is itself. *)
Lemma parseInt_toString_integer z :
  z ≠ 0 → Z.abs z < 10 ^ 21 →
  parseInt (Number_toString (Num (inject_Z z))) = Num (inject_Z z).
Proof.
  intros Hz Hlt.
  destruct z as [|a|a]; [done| |]; cbn [Number_toString inject_Z Qnum Qden].
  - destruct (positive_toString_integer a Hlt) as (d & rest & Hd & Hhead & Hdigits).
    unfold parseInt. rewrite Hhead in *.
    destruct (digit_head_plain d rest Hd) as [-> ->].
    cbv beta iota. rewrite Hdigits. by rewrite Z.mul_1_l.
  - destruct (positive_toString_integer a Hlt) as (d & rest & Hd & Hhead & Hdigits).
    unfold parseInt.
    change (sign_split (trim_start ("-" +:+ positive_toString (Z.pos a) 1)))
      with (-1, positive_toString (Z.pos a) 1).
    cbv beta iota. by rewrite Hdigits.
Qed.

(** ** Strings read by [parseInt] *)










Example parseInt_white_space :
  parseInt (String (ascii_of_nat 194) (String (ascii_of_nat 160) "3")) = lit 3
  ∧ parseInt (String (ascii_of_nat 226) (String (ascii_of_nat 128)
                (String (ascii_of_nat 168) " 12px"))) = lit 12
  ∧ parseInt (String (ascii_of_nat 239) (String (ascii_of_nat 187)
                (String (ascii_of_nat 191) "-7"))) = Num (inject_Z (-7))
  ∧ parseInt (String (ascii_of_nat 226) (String (ascii_of_nat 128)
                (String (ascii_of_nat 139) "3"))) = NaN.
Proof. repeat split; vm_compute; reflexivity. Qed.

(** * Running the methods *)

Arguments borderRect : simpl never.
Arguments parseInt : simpl never.
Arguments toString : simpl never.
Arguments js_or : simpl never.
Arguments has_listeners : simpl never.
Arguments listeners : simpl never.

Lemma bind_run {A B : Type} (m : M A) (k : A → M B) s a s1 :
  m s = Some (a, s1) → bind m k s = k a s1.
Proof. intros Hm. unfold bind. rewrite Hm. reflexivity. Qed.

Lemma getElement_run s e el :
  elems s !! e = Some el → getElement e s = Some (el, s).
Proof. intros Hel. unfold getElement, deref. rewrite Hel. reflexivity. Qed.

Lemma getNode_run s d nd : nodes s !! d = Some nd → getNode d s = Some (nd, s).
Proof. intros Hnd. unfold getNode, deref. rewrite Hnd. reflexivity. Qed.

Lemma removeFocusBorder_run s this el :
  elems s !! this = Some el →
  removeFocusBorder this s =
    Some (tt, match focusBorder el with
              | Some fb => set_elems (<[this := set_focusBorder None el]> (elems s))
                             (set_rects (delete fb (rects s)) (nextRect s) s)
              | None => s
              end).
Proof.
  intros Hel. unfold removeFocusBorder.
  rewrite (bind_run _ _ _ _ _ (getElement_run _ _ _ Hel)).
  destruct (focusBorder el); reflexivity.
Qed.

Lemma toString_or v n : ∃ str, toString (js_or v (VNumber n)) = Some str.
Proof.
  unfold js_or. destruct (ToBoolean v) eqn:Hv; [|by eexists].
  destruct v; [discriminate| |]; by eexists.
Qed.

Lemma getBBox_run s this el d :
  elems s !! this = Some el → element el = Some d →
  getBBox this s = Some (bBox el, s).
Proof.
  intros Hel Hd. unfold getBBox.
  by rewrite (bind_run _ _ _ _ _ (getElement_run _ _ _ Hel)), Hd.
Qed.

(** ** The write to the bounding box *)

Lemma share_fields k bb el :
  element (share k bb el) = element el
  ∧ cacheKey (share k bb el) = cacheKey el
  ∧ focusBorder (share k bb el) = focusBorder el.
Proof. unfold share. by case_decide. Qed.

Lemma shifted_fields el :
  element (shifted el) = element el
  ∧ cacheKey (shifted el) = cacheKey el
  ∧ focusBorder (shifted el) = focusBorder el
  ∧ translateX (shifted el) = translateX el
  ∧ translateY (shifted el) = translateY el
  ∧ rotation (shifted el) = rotation el
  ∧ attr_x (shifted el) = attr_x el
  ∧ attr_y (shifted el) = attr_y el
  ∧ parentGroup (shifted el) = parentGroup el.
Proof. unfold shifted. destruct (cacheKey el) eqn:Hk; cbn; by split_and!. Qed.

Lemma shifted_uncached el : cacheKey el = None → shifted el = el.
Proof. unfold shifted. by intros ->. Qed.

Lemma shifted_set_focusBorder fb el :
  shifted (set_focusBorder fb el) = set_focusBorder fb (shifted el).
Proof. unfold shifted. cbn. by destruct (cacheKey el). Qed.

Lemma shift_bBox_uncached el m : cacheKey el = None → shift_bBox el m = m.
Proof. unfold shift_bBox. by intros ->. Qed.

Lemma shift_bBox_set_focusBorder fb el m :
  shift_bBox (set_focusBorder fb el) m = shift_bBox el m.
Proof. done. Qed.

Lemma shift_bBox_this el m this :
  m !! this = Some el → shift_bBox el m !! this = Some (shifted el).
Proof.
  intros Hel. unfold shift_bBox, shifted.
  destruct (cacheKey el) as [k|] eqn:Hk; [|done].
  rewrite lookup_fmap, Hel. cbn. unfold share. by rewrite decide_True.
Qed.

(** Another wrapper sees the write when it has the key of the box. *)
Lemma shift_bBox_other el m e el' :
  m !! e = Some el' →
  shift_bBox el m !! e =
    Some (if decide (is_Some (cacheKey el) ∧ cacheKey el' = cacheKey el)
          then set_bBox (translated (bBox el) (translateX el) (translateY el)) el'
          else el').
Proof.
  intros Hel'. unfold shift_bBox. destruct (cacheKey el) as [k|] eqn:Hk.
  - rewrite lookup_fmap, Hel'. cbn. unfold share.
    destruct (decide (cacheKey el' = Some k)) as [Hk'|Hk'].
    + rewrite decide_True; [done|]. split; [by eexists|done].
    + rewrite decide_False; [done|]. by intros [_ ?].
  - rewrite Hel'. rewrite decide_False; [done|]. by intros [[? ?] _].
Qed.

Lemma shift_bBox_fields el m e :
  element <$> shift_bBox el m !! e = element <$> m !! e
  ∧ focusBorder <$> shift_bBox el m !! e = focusBorder <$> m !! e.
Proof.
  destruct (m !! e) as [el'|] eqn:Hel'.
  - rewrite (shift_bBox_other _ _ _ _ Hel'). cbn. by case_decide.
  - unfold shift_bBox. destruct (cacheKey el); [|by rewrite Hel'].
    by rewrite lookup_fmap, Hel'.
Qed.

Lemma shift_bBox_insert el m this :
  shift_bBox el (<[this := el]> m) = <[this := shifted el]> (shift_bBox el m).
Proof.
  unfold shift_bBox, shifted. destruct (cacheKey el) as [k|] eqn:Hk; [|done].
  rewrite fmap_insert. f_equal. unfold share. by rewrite decide_True.
Qed.

Lemma write_bBox_run s this el :
  elems s !! this = Some el →
  ∃ s1, write_bBox this (translated (bBox el) (translateX el) (translateY el)) s
          = Some (tt, s1)
    ∧ elems s1 = shift_bBox el (elems s)
    ∧ chart s1 = chart s ∧ nodes s1 = nodes s ∧ rects s1 = rects s
    ∧ nextRect s1 = nextRect s ∧ styledMode s1 = styledMode s
    ∧ isFirefox s1 = isFirefox s ∧ trace s1 = trace s.
Proof.
  intros Hel. unfold write_bBox, shift_bBox.
  rewrite (bind_run _ _ _ _ _ (getElement_run _ _ _ Hel)).
  destruct (cacheKey el); eexists; (split; [reflexivity|]); by split_and!.
Qed.

Lemma addFocusBorder_unbordered s this el d nd margin style :
  elems s !! this = Some el →
  focusBorder el = None →
  element el = Some d →
  nodes s !! d = Some nd →
  ∃ s', addFocusBorder this margin style s = Some (tt, s')
    ∧ chart s' = chart s ∧ nodes s' = nodes s ∧ trace s' = trace s
    ∧ styledMode s' = styledMode s ∧ isFirefox s' = isFirefox s
    ∧ nextRect s' = S (nextRect s)
    ∧ elems s' = <[this := set_focusBorder (Some (nextRect s)) (shifted el)]>
                   (shift_bBox el (elems s))
    ∧ rects s' = <[nextRect s := border s el nd margin style]> (rects s).
Proof.
  intros Hel Hfb Hd Hnd.
  destruct (toString_or (style_and borderRadius style) (lit 0)) as [str Hstr].
  destruct (write_bBox_run s this el Hel)
    as (s1 & Hw & He1 & Hc1 & Hn1 & Hr1 & Hx1 & Hs1 & Hf1 & Ht1).
  assert (elems s1 !! this = Some (shifted el)) as Hel1
    by (rewrite He1; by apply shift_bBox_this).
  destruct (shifted_fields el) as (Fe & _ & _ & Ftx & Fty & Frot & Fx & Fy & Fp).
  unfold addFocusBorder.
  rewrite (bind_run _ _ _ _ _ (getElement_run _ _ _ Hel)), Hfb.
  rewrite (bind_run _ _ s tt s eq_refl).
  rewrite (bind_run _ _ _ _ _ (getBBox_run _ _ _ _ Hel Hd)).
  rewrite (bind_run _ _ _ _ _ (getElement_run _ _ _ Hel)).
  rewrite (bind_run _ _ _ _ _ Hw).
  rewrite (bind_run _ _ _ _ _ (getElement_run _ _ _ Hel1)), Fe, Hd.
  rewrite (bind_run (getNode d) _ s1 nd s1) by (apply getNode_run; by rewrite Hn1).
  rewrite (bind_run _ _ s1 (isFirefox s1) s1 eq_refl), Hstr.
  rewrite Ftx, Fty, Frot, Fx, Fy, Fp, Hf1.
  unfold bind, ret, gets, renderer_rect, addClass, attr, add_to, setElement,
    update_rect, modify. cbn.
  rewrite !alter_insert_eq, ?Hs1.
  destruct (styledMode s) eqn:Hst; cbn; eexists; (split; [reflexivity|]); cbn;
    rewrite ?alter_insert_eq, ?Hx1, ?Hr1, ?He1, ?Hc1, ?Hn1, ?Ht1;
    unfold border, radius; rewrite Hstr, Hst; cbn; by split_and!.
Qed.

(** A bordered element is first cleared, then drawn as an unbordered one. *)
Lemma addFocusBorder_bordered s this el fb margin style :
  elems s !! this = Some el →
  focusBorder el = Some fb →
  addFocusBorder this margin style s =
  addFocusBorder this margin style
    (set_elems (<[this := set_focusBorder None el]> (elems s))
       (set_rects (delete fb (rects s)) (nextRect s) s)).
Proof.
  intros Hel Hfb. unfold addFocusBorder.
  rewrite (bind_run _ _ _ _ _ (getElement_run _ _ _ Hel)), Hfb.
  erewrite (bind_run (removeFocusBorder this)); cycle 1.
  { rewrite (removeFocusBorder_run _ _ _ Hel), Hfb. reflexivity. }
  symmetry. erewrite bind_run; cycle 1.
  { apply getElement_run. cbn. apply lookup_insert_eq. }
  cbn. reflexivity.
Qed.

Lemma addFocusBorder_run s this el d nd margin style :
  elems s !! this = Some el →
  element el = Some d →
  nodes s !! d = Some nd →
  ∃ s', addFocusBorder this margin style s = Some (tt, s')
    ∧ chart s' = chart s ∧ nodes s' = nodes s ∧ trace s' = trace s
    ∧ styledMode s' = styledMode s ∧ isFirefox s' = isFirefox s
    ∧ nextRect s' = S (nextRect s)
    ∧ elems s' = <[this := set_focusBorder (Some (nextRect s)) (shifted el)]>
                   (shift_bBox el (elems s))
    ∧ rects s' = <[nextRect s := border s el nd margin style]>
                   (erase (focusBorder el) (rects s)).
Proof.
  intros Hel Hd Hnd. destruct (focusBorder el) as [fb|] eqn:Hfb.
  - rewrite (addFocusBorder_bordered _ _ _ _ _ _ Hel Hfb).
    edestruct (addFocusBorder_unbordered
                 (set_elems (<[this := set_focusBorder None el]> (elems s))
                    (set_rects (delete fb (rects s)) (nextRect s) s))
                 this (set_focusBorder None el) d nd margin style)
      as (s' & Hrun & Hc & Hn & Ht & Hs & Hf & Hx & He & Hr);
      [apply lookup_insert_eq | reflexivity | exact Hd | exact Hnd |].
    cbn in *.
    rewrite shift_bBox_set_focusBorder, shifted_set_focusBorder in He.
    assert (shift_bBox el (<[this := set_focusBorder None el]> (elems s))
            = <[this := set_focusBorder None (shifted el)]>
                (shift_bBox el (elems s))) as Hsh.
    { rewrite <- shifted_set_focusBorder.
      exact (shift_bBox_insert (set_focusBorder None el) (elems s) this). }
    rewrite Hsh, insert_insert_eq in He.
    exists s'. repeat split; assumption.
  - eapply addFocusBorder_unbordered; eassumption.
Qed.

(** ** The browser-focus block *)

Lemma has_listeners_after_add type nd (l : list Listener) :
  has_listeners type
    {| nodeName := nodeName nd; focus := focus nd;
       hcEvents := Some (<[type := l]> (default ∅ (hcEvents nd)));
       outline := outline nd |} = true.
Proof.
  unfold has_listeners. cbn. apply bool_decide_eq_true.
  rewrite lookup_insert_eq. by eexists.
Qed.

Lemma listeners_none type nd :
  has_listeners type nd = false → default [] (default ∅ (hcEvents nd) !! type) = [].
Proof.
  unfold has_listeners. destruct (hcEvents nd) as [ev|]; cbn; [|done].
  intros Hf. apply bool_decide_eq_false in Hf.
  destruct (ev !! type) eqn:E; [|done]. exfalso. apply Hf. by eexists.
Qed.

(** The block on a target that takes focus. *)
Lemma setBrowserFocus_focusable o s d nd :
  nodes s !! d = Some nd →
  focus nd = true →
  ∃ nd', setBrowserFocus o (Some d) s =
           Some (tt, log (Focus d)
                       (let s' := set_nodes (<[d := nd']> (nodes s)) s in
                        if has_listeners "focusin" nd then s'
                        else log (AddEventListener d "focusin") s'))
    ∧ nodeName nd' = nodeName nd ∧ focus nd' = focus nd
    ∧ has_listeners "focusin" nd' = true
    ∧ listeners "focusin" nd' =
        (if has_listeners "focusin" nd then listeners "focusin" nd else [NoOp])
    ∧ outline nd' = (if hideBrowserFocusOutline o then Some "none" else outline nd).
Proof.
  intros Hnd Hf. unfold setBrowserFocus.
  rewrite (bind_run _ _ _ _ _ (getNode_run _ _ _ Hnd)), Hf.
  destruct (has_listeners "focusin" nd) eqn:Hl.
  - rewrite (bind_run _ _ s tt s eq_refl).
    unfold node_focus. rewrite (bind_run _ _ s tt (log (Focus d) s) eq_refl).
    destruct (hideBrowserFocusOutline o).
    + unfold set_outline.
      rewrite (bind_run _ _ (log (Focus d) s) nd (log (Focus d) s))
        by (by apply getNode_run).
      eexists. split; [reflexivity|]. cbn. repeat split; try done.
    + exists nd. rewrite (insert_id _ _ _ Hnd). split; [by destruct s|]. done.
  - unfold addEvent, node_focus, set_outline, setNode, modify, bind, getNode,
      deref, ret.
    rewrite Hnd. cbn.
    destruct (hideBrowserFocusOutline o); cbn; rewrite ?lookup_insert_eq; cbn;
      eexists; (split; [rewrite ?insert_insert_eq; reflexivity|]);
      cbn; rewrite (listeners_none _ _ Hl); repeat split; try done;
      try apply has_listeners_after_add.
    all: unfold listeners; cbn; by rewrite lookup_insert_eq.
Qed.

Lemma set_focusBorder_id el : focusBorder el = None → set_focusBorder None el = el.
Proof. intros H. destruct el; cbn in *. by subst. Qed.

Lemma removeFocusBorder_spec s this el :
  elems s !! this = Some el →
  ∃ s', removeFocusBorder this s = Some (tt, s')
    ∧ renderer_only s s' ∧ nextRect s' = nextRect s
    ∧ elems s' = disown (Some this) (elems s)
    ∧ rects s' = erase (focusBorder el) (rects s).
Proof.
  intros Hel. rewrite (removeFocusBorder_run _ _ _ Hel).
  eexists; split; [reflexivity|]. unfold renderer_only, disown.
  destruct (focusBorder el) as [fb|] eqn:Hfb; cbn.
  - repeat split. apply map_eq; intros i. rewrite lookup_alter, lookup_insert.
    case_decide; subst; [by rewrite Hel|done].
  - repeat split. apply map_eq; intros i. rewrite lookup_alter.
    case_decide; subst; [|done]. rewrite Hel; cbn. by rewrite set_focusBorder_id.
Qed.

Lemma setBrowserFocus_frame o s target :
  (∀ d, target = Some d → is_Some (nodes s !! d)) →
  ∃ s', setBrowserFocus o target s = Some (tt, s') ∧ document_only s s'.
Proof.
  intros Ht. destruct target as [d|]; cycle 1.
  { exists s. split; [done|]. by repeat split. }
  destruct (Ht d eq_refl) as [nd Hnd]. destruct (focus nd) eqn:Hf.
  - destruct (setBrowserFocus_focusable o s d nd Hnd Hf) as (nd' & Hrun & Hname & _).
    eexists. split; [exact Hrun|].
    destruct (has_listeners "focusin" nd); cbn; repeat split; cbn;
      intros d'; rewrite lookup_insert; case_decide; subst; rewrite ?Hnd; cbn;
      by rewrite ?Hname.
  - exists s. split; [|by repeat split].
    unfold setBrowserFocus. by rewrite (bind_run _ _ _ _ _ (getNode_run _ _ _ Hnd)), Hf.
Qed.

Lemma bind_ret_tt (m : M unit) s : bind m (λ _, ret tt) s = m s.
Proof. unfold bind, ret. by destruct (m s) as [[[] ?]|]. Qed.

Lemma setFocusToElement_disabled s e f el :
  enabled (options (chart s)) = false →
  elems s !! e = Some el →
  setFocusToElement e f s =
  setBrowserFocus (options (chart s)) (browserFocusElement f el) s.
Proof.
  intros Hen Hel. unfold setFocusToElement.
  rewrite (bind_run _ _ s (options (chart s)) s eq_refl).
  rewrite (bind_run _ _ _ _ _ (getElement_run _ _ _ Hel)), Hen.
  apply bind_ret_tt.
Qed.

Lemma border_ext s s' el el' nd nd' margin style :
  isFirefox s' = isFirefox s → styledMode s' = styledMode s →
  nodeName nd' = nodeName nd →
  set_focusBorder None el' = set_focusBorder None el →
  border s' el' nd' margin style = border s el nd margin style.
Proof.
  intros Hf Hs Hn He. unfold border.
  injection He as E1 E2 E3 E4 E5 E6 E7 E8 E9.
  by rewrite Hf, Hs, Hn, ?E1, ?E2, ?E3, ?E4, ?E5, ?E6, ?E7, ?E8, ?E9.
Qed.

(** Two wrappers that differ in their [focusBorder] at most are shifted
    alike. *)
Lemma shift_ext el el' :
  set_focusBorder None el' = set_focusBorder None el →
  shift_bBox el' = shift_bBox el
  ∧ ∀ fb, set_focusBorder fb (shifted el') = set_focusBorder fb (shifted el).
Proof.
  intros He. injection He as E1 E2 E3 E4 E5 E6 E7 E8 E9.
  unfold shift_bBox, shifted. rewrite E2, E3, E4, E5. split; [done|].
  intros fb.
  destruct (cacheKey el) eqn:Hk; unfold set_focusBorder, set_bBox; cbn;
    by rewrite ?E1, ?E2, ?E3, ?Hk, ?E4, ?E5, ?E6, ?E7, ?E8, ?E9.
Qed.

Lemma owned_shift el m e :
  match shift_bBox el m !! e with
  | Some el' => focusBorder el'
  | None => None
  end = match m !! e with
        | Some el' => focusBorder el'
        | None => None
        end.
Proof.
  pose proof (proj2 (shift_bBox_fields el m e)) as Hfb.
  destruct (shift_bBox el m !! e), (m !! e); cbn in Hfb; congruence.
Qed.

Lemma disown_fields o m e :
  element <$> disown o m !! e = element <$> m !! e.
Proof.
  destruct o as [e0|]; cbn; [|done]. rewrite lookup_alter.
  case_decide; subst; [|done]. by destruct (m !! e).
Qed.

Lemma setFocusToElement_enabled s e f el d nd :
  wf s →
  enabled (options (chart s)) = true →
  elems s !! e = Some el →
  element el = Some d →
  nodes s !! d = Some nd →
  (∀ d', f = Some d' → is_Some (nodes s !! d')) →
  ∃ s1 s',
    setBrowserFocus (options (chart s)) (browserFocusElement f el) s
      = Some (tt, s1)
    ∧ setFocusToElement e f s = Some (tt, s')
    ∧ nodes s' = nodes s1 ∧ trace s' = trace s1
    ∧ styledMode s' = styledMode s ∧ isFirefox s' = isFirefox s
    ∧ chart s' = {| options := options (chart s); focusElement := Some e |}
    ∧ nextRect s' = S (nextRect s)
    ∧ elems s' = <[e := set_focusBorder (Some (nextRect s)) (shifted el)]>
                   (shift_bBox el (disown (focusElement (chart s)) (elems s)))
    ∧ rects s' = <[nextRect s :=
                     border s el nd (margin (options (chart s)))
                       (Some (focusBorderStyle (options (chart s))))]>
                   (erase (focusBorder el)
                      (erase (focusElement (chart s) ≫= owned s) (rects s))).
Proof.
  intros [Hwf1 Hwf2] Hen Hel Hd Hnd Hf.
  destruct (setBrowserFocus_frame (options (chart s)) s (browserFocusElement f el))
    as (s1 & Hrun1 & Hc1 & He1 & Hr1 & Hx1 & Hs1 & Hf1 & Hn1).
  { intros d'. destruct f as [d0|]; cbn; [by apply Hf|].
    intros Hd'. rewrite Hd in Hd'. injection Hd' as <-. by eexists. }
  exists s1. unfold setFocusToElement.
  rewrite (bind_run _ _ s (options (chart s)) s eq_refl).
  rewrite (bind_run _ _ _ _ _ (getElement_run _ _ _ Hel)).
  rewrite (bind_run _ _ _ _ _ Hrun1), Hen.
  rewrite (bind_run _ _ s1 (focusElement (chart s1)) s1 eq_refl), Hc1.
  assert (∃ s2, match focusElement (chart s) with
                | Some e0 => removeFocusBorder e0
                | None => ret ()
                end s1 = Some (tt, s2)
              ∧ renderer_only s1 s2 ∧ nextRect s2 = nextRect s
              ∧ elems s2 = disown (focusElement (chart s)) (elems s)
              ∧ rects s2 = erase (focusElement (chart s) ≫= owned s) (rects s))
    as (s2 & Hrun2 & Hro2 & Hx2 & He2 & Hr2).
  { destruct (focusElement (chart s)) as [old|] eqn:Hold.
    - destruct (Hwf2 old eq_refl) as [elo Helo].
      destruct (removeFocusBorder_spec s1 old elo) as (s2 & ? & ? & ? & ? & ?);
        [by rewrite He1|].
      exists s2. cbn. unfold owned. rewrite Helo.
      split; [done|]. split; [done|]. split; [congruence|].
      split; [by rewrite H2, He1 | by rewrite H3, Hr1].
    - exists s1. cbn. repeat split; congruence. }
  rewrite (bind_run _ _ _ _ _ Hrun2).
  destruct Hro2 as (Hc2 & Hn2 & Ht2 & Hs2 & Hf2).
  pose proof (Hn1 d) as Hn1d. rewrite Hnd, <- Hn2 in Hn1d.
  destruct (nodes s2 !! d) as [nd2|] eqn:Hnd2; [|done]. injection Hn1d as Hname.
  assert (∃ el2, elems s2 !! e = Some el2
                 ∧ set_focusBorder None el2 = set_focusBorder None el
                 ∧ erase (focusBorder el2) (rects s2) =
                   erase (focusBorder el)
                     (erase (focusElement (chart s) ≫= owned s) (rects s)))
    as (el2 & Hel2 & Hsame & Herase).
  { rewrite He2, Hr2. destruct (focusElement (chart s)) as [old|]; cbn; [|by eauto].
    rewrite lookup_alter. case_decide; subst.
    - rewrite Hel. cbn. eexists. split; [done|]. split; [done|]. cbn.
      unfold owned. rewrite Hel. destruct (focusBorder el); cbn; [|done].
      by rewrite delete_delete_eq.
    - eauto. }
  destruct (addFocusBorder_run s2 e el2 d nd2 (margin (options (chart s)))
              (Some (focusBorderStyle (options (chart s)))))
    as (s3 & Hrun3 & Hc3 & Hn3 & Ht3 & Hs3 & Hf3 & Hx3 & He3 & Hr3); [done| |done|].
  { transitivity (element (set_focusBorder None el2)); [done|]. by rewrite Hsame. }
  rewrite (bind_run _ _ _ _ _ Hrun3).
  eexists. split; [done|]. split; [reflexivity|]. cbn.
  repeat split; try congruence.
  - rewrite He3, Hx2, He2. destruct (shift_ext el el2 Hsame) as [-> ->]. done.
  - rewrite Hr3, Hx2.
    rewrite Herase. f_equal. apply border_ext; congruence.
Qed.

(** What a successful [addFocusBorder] leaves for its element. *)
Lemma addFocusBorder_overlay s this el d nd margin style :
  elems s !! this = Some el →
  element el = Some d →
  nodes s !! d = Some nd →
  ∃ s', addFocusBorder this margin style s = Some (tt, s')
    ∧ owned s' this = Some (nextRect s)
    ∧ overlay s' this = Some (border s el nd margin style).
Proof.
  intros Hel Hd Hnd.
  destruct (addFocusBorder_run s this el d nd margin style Hel Hd Hnd)
    as (s' & Hrun & _ & _ & _ & _ & _ & _ & He & Hr).
  exists s'. split; [done|].
  assert (owned s' this = Some (nextRect s)) as Ho.
  { unfold owned. by rewrite He, lookup_insert_eq. }
  split; [done|]. unfold overlay. by rewrite Ho, Hr, lookup_insert_eq.
Qed.

(** ** The corner radius *)

Lemma radius_falsy style :
  ToBoolean (style_and borderRadius style) = false → radius style = lit 0.
Proof. intros Hb. unfold radius, js_or. rewrite Hb. reflexivity. Qed.

Lemma radius_truthy style str :
  ToBoolean (style_and borderRadius style) = true →
  toString (style_and borderRadius style) = Some str →
  radius style = parseInt str.
Proof. intros Hb Hs. unfold radius, js_or. rewrite Hb, Hs. reflexivity. Qed.

Lemma corner_radius_integer z :
  corner_radius (Num (inject_Z z)) = Num (inject_Z z).
Proof. by destruct z. Qed.

(** An integer border radius is the corner radius. *)
Lemma corner_radius_number st z :
  borderRadius st = VNumber (Num (inject_Z z)) →
  Z.abs z < 10 ^ 21 →
  corner_radius (radius (Some st)) = Num (inject_Z z).
Proof.
  intros Hbr Hz. destruct (decide (z = 0)) as [->|Hnz].
  - rewrite radius_falsy; [done|]. cbn. by rewrite Hbr.
  - assert (radius (Some st) = Num (inject_Z z)) as ->;
      [|apply corner_radius_integer].
    rewrite <- (parseInt_toString_integer z Hnz Hz).
    apply radius_truthy; cbn; rewrite Hbr; [|done]. by destruct z.
Qed.


(** ** Calls of [setFocusToElement] *)

Lemma browserFocusElement_resolves s e f el :
  wf s →
  elems s !! e = Some el →
  (∀ d, f = Some d → is_Some (nodes s !! d)) →
  ∀ d, browserFocusElement f el = Some d → is_Some (nodes s !! d).
Proof.
  intros [Hwf _] Hel Hf d. destruct f as [d0|]; cbn; [by apply Hf|].
  intros Hd. destruct (Hwf e el Hel) as (d' & Hd' & Hn). congruence.
Qed.

Lemma is_Some_fmap_eq {A B : Type} (g : A → B) (x y : option A) :
  g <$> x = g <$> y → is_Some x ↔ is_Some y.
Proof. destruct x, y; cbn; intros; try done; split; intros [? ?]; done. Qed.

(** Every call with objects of the store returns; the browser-focus block
    accounts for the document, the rest for the renderer. *)
Lemma setFocusToElement_spec s e f el :
  wf s →
  elems s !! e = Some el →
  (∀ d, f = Some d → is_Some (nodes s !! d)) →
  ∃ s1 s',
    setBrowserFocus (options (chart s)) (browserFocusElement f el) s
      = Some (tt, s1)
    ∧ document_only s s1
    ∧ setFocusToElement e f s = Some (tt, s')
    ∧ nodes s' = nodes s1 ∧ trace s' = trace s1
    ∧ styledMode s' = styledMode s ∧ isFirefox s' = isFirefox s
    ∧ options (chart s') = options (chart s)
    ∧ wf s'
    ∧ (∀ e', element <$> elems s' !! e' = element <$> elems s !! e')
    ∧ (∀ d', is_Some (nodes s' !! d') ↔ is_Some (nodes s !! d'))
    ∧ (enabled (options (chart s)) = false →
         chart s' = chart s ∧ elems s' = elems s ∧ rects s' = rects s
         ∧ nextRect s' = nextRect s).
Proof.
  intros Hwf Hel Hf.
  pose proof (browserFocusElement_resolves s e f el Hwf Hel Hf) as Hres.
  destruct (setBrowserFocus_frame (options (chart s)) s (browserFocusElement f el) Hres)
    as (s1 & Hrun1 & Hdoc).
  pose proof Hdoc as (Hc1 & He1 & Hr1 & Hx1 & Hs1 & Hf1 & Hn1).
  assert (∀ d', is_Some (nodes s1 !! d') ↔ is_Some (nodes s !! d')) as Hdom1.
  { intros d'. by apply (is_Some_fmap_eq nodeName). }
  destruct (enabled (options (chart s))) eqn:Hen.
  - destruct Hwf as [Hwf1 Hwf2].
    destruct (Hwf1 e el Hel) as (d & Hd & [nd Hnd]).
    destruct (setFocusToElement_enabled s e f el d nd (conj Hwf1 Hwf2) Hen Hel Hd Hnd Hf)
      as (s1' & s' & Hrun1' & Hrun & Hn & Ht & Hs & Hff & Hc & Hx & He & Hr).
    rewrite Hrun1 in Hrun1'. injection Hrun1' as <-.
    exists s1, s'. split; [done|]. split; [done|]. split; [done|].
    assert (∀ e', element <$> elems s' !! e' = element <$> elems s !! e')
      as Hdom.
    { intros e'. rewrite He, lookup_insert. case_decide; subst.
      - rewrite Hel. cbn. by rewrite (proj1 (shifted_fields el)).
      - rewrite (proj1 (shift_bBox_fields _ _ _)). apply disown_fields. }
    assert (wf s') as Hwf'.
    { split.
      - intros e' el' Hel'. pose proof (Hdom e') as Hfr. rewrite Hel' in Hfr.
        destruct (elems s !! e') as [el0|] eqn:Hel0; [|done].
        injection Hfr as Hfr.
        destruct (Hwf1 e' el0 Hel0) as (d0 & Hd0 & Hn0).
        exists d0. split; [congruence|]. rewrite Hn. by apply Hdom1.
      - rewrite Hc. cbn. intros e' [= <-].
        apply (is_Some_fmap_eq element) with (y := elems s !! e); [done|].
        by eexists. }
    split_and!; try done.
    + by rewrite Hc.
    + intros d'. rewrite Hn. apply Hdom1.
  - rewrite (setFocusToElement_disabled s e f el Hen Hel).
    exists s1, s1. split_and!; try done.
    + by rewrite Hc1.
    + split.
      * intros e' el' Hel'. rewrite He1 in Hel'.
        destruct Hwf as [Hwf1 _]. destruct (Hwf1 e' el' Hel') as (d0 & Hd0 & Hn0).
        exists d0. split; [done|]. by apply Hdom1.
      * rewrite Hc1, He1. apply Hwf.
    + intros e'. by rewrite He1.
Qed.

(** The block on a target that takes focus, by what it leaves behind. *)
Lemma setBrowserFocus_focus o s d nd :
  nodes s !! d = Some nd →
  focus nd = true →
  ∃ s1 nd1,
    setBrowserFocus o (Some d) s = Some (tt, s1)
    ∧ nodes s1 !! d = Some nd1
    ∧ focus nd1 = true
    ∧ has_listeners "focusin" nd1 = true
    ∧ trace s1 = trace s
        ++ (if has_listeners "focusin" nd then []
            else [AddEventListener d "focusin"])
        ++ [Focus d]
    ∧ listeners "focusin" nd1 =
        (if has_listeners "focusin" nd then listeners "focusin" nd else [NoOp]).
Proof.
  intros Hnd Hf.
  destruct (setBrowserFocus_focusable o s d nd Hnd Hf)
    as (nd1 & Hrun & _ & Hf1 & Hh & Hl & _).
  eexists _, nd1. split; [exact Hrun|].
  destruct (has_listeners "focusin" nd); cbn; rewrite lookup_insert_eq;
    split_and!; try done; try congruence.
  by rewrite <- app_assoc.
Qed.

Lemma setBrowserFocus_explicit o s d nd :
  nodes s !! d = Some nd →
  focus nd = true →
  ∃ s1, setBrowserFocus o (Some d) s = Some (tt, s1)
    ∧ nodes s1 = <[d := focused_node (hideBrowserFocusOutline o) nd]> (nodes s)
    ∧ trace s1 = trace s ++ focus_effects d nd.
Proof.
  intros Hnd Hf.
  destruct (setBrowserFocus_frame o s (Some d)) as (s1 & Hrun & Hdoc).
  { intros ? [= <-]. by eexists. }
  exists s1. split; [done|]. split.
  - revert Hrun. unfold setBrowserFocus, focused_node.
    rewrite (bind_run _ _ _ _ _ (getNode_run _ _ _ Hnd)), Hf.
    destruct (has_listeners "focusin" nd) eqn:Hl.
    + rewrite (bind_run _ _ s tt s eq_refl).
      unfold node_focus. rewrite (bind_run _ _ s tt (log (Focus d) s) eq_refl).
      destruct (hideBrowserFocusOutline o).
      * unfold set_outline.
        rewrite (bind_run _ _ (log (Focus d) s) nd (log (Focus d) s))
          by (by apply getNode_run).
        unfold setNode, modify. intros [= <-]. cbn. by rewrite Hf.
      * intros [= <-]. cbn. rewrite insert_id; [done|]. rewrite Hnd, <- Hf.
        by destruct nd.
    + unfold addEvent, node_focus, set_outline, setNode, modify, bind, getNode,
        deref, ret.
      rewrite Hnd. cbn. rewrite (listeners_none _ _ Hl).
      destruct (hideBrowserFocusOutline o); cbn; rewrite ?lookup_insert_eq; cbn;
        intros [= <-]; cbn; by rewrite ?insert_insert_eq, ?Hf.
  - destruct (setBrowserFocus_focus o s d nd Hnd Hf)
      as (s1' & nd1 & Hrun' & _ & _ & _ & Ht & _).
    rewrite Hrun in Hrun'. by injection Hrun' as <-.
Qed.

Lemma setBrowserFocus_idle o s d nd :
  nodes s !! d = Some nd →
  focus nd = false →
  setBrowserFocus o (Some d) s = Some (tt, s).
Proof.
  intros Hnd Hf. unfold setBrowserFocus.
  by rewrite (bind_run _ _ _ _ _ (getNode_run _ _ _ Hnd)), Hf.
Qed.

Lemma has_listeners_entry type nd :
  has_listeners type nd = true
  ↔ ∃ ev l, hcEvents nd = Some ev ∧ ev !! type = Some l.
Proof.
  unfold has_listeners. destruct (hcEvents nd) as [ev|]; cbn.
  - rewrite bool_decide_eq_true. split.
    + intros [l Hl]. by exists ev, l.
    + intros (ev' & l & [= <-] & Hl). by eexists.
  - split; [done|]. by intros (? & ? & ? & _).
Qed.

Lemma has_listeners_no_entry type nd :
  has_listeners type nd = false
  ↔ hcEvents nd = None ∨ ∃ ev, hcEvents nd = Some ev ∧ ev !! type = None.
Proof.
  unfold has_listeners. destruct (hcEvents nd) as [ev|]; cbn.
  - rewrite bool_decide_eq_false. split.
    + intros Hno. right. exists ev. split; [done|].
      destruct (ev !! type) eqn:E; [|done]. exfalso. apply Hno. by eexists.
    + intros [?|(ev' & [= <-] & Hl)]; [done|]. rewrite Hl. by intros [? ?].
  - split; [by left|done].
Qed.

Lemma has_listeners_focused_node hide nd :
  has_listeners "focusin" (focused_node hide nd) = true.
Proof.
  unfold focused_node. destruct (has_listeners "focusin" nd) eqn:Hl.
  - unfold has_listeners in *. cbn. done.
  - unfold has_listeners. cbn. apply bool_decide_eq_true.
    rewrite lookup_insert_eq. by eexists.
Qed.

Lemma browserFocusElement_target f el d :
  browserFocusElement f el = Some d
  ↔ f = Some d ∨ (f = None ∧ element el = Some d).
Proof.
  destruct f as [d0|]; cbn.
  - split; [intros [= <-]; by left|]. by intros [[= <-]|[? _]].
  - split; [by right|]. by intros [?|[_ ?]].
Qed.

(** A call with borders enabled: who owns what afterwards. *)
Lemma setFocusToElement_owned s e f :
  wf s →
  enabled (options (chart s)) = true →
  callable s e f →
  ∃ s',
    setFocusToElement e f s = Some (tt, s')
    ∧ wf s'
    ∧ options (chart s') = options (chart s)
    ∧ focusElement (chart s') = Some e
    ∧ nextRect s' = S (nextRect s)
    ∧ owned s' e = Some (nextRect s)
    ∧ is_Some (rects s' !! nextRect s)
    ∧ (∀ e', e' ≠ e →
         owned s' e' = if decide (focusElement (chart s) = Some e') then None
                       else owned s e')
    ∧ (∀ k, k ≠ nextRect s →
         rects s' !! k =
           if decide (Some k = owned s e
                      ∨ Some k = focusElement (chart s) ≫= owned s)
           then None else rects s !! k)
    ∧ (∀ e' f', callable s e' f' → callable s' e' f').
Proof.
  intros Hwf Hen [[el Hel] Hf].
  destruct (setFocusToElement_spec s e f el Hwf Hel Hf)
    as (s1 & s' & Hb & _ & Hrun & _ & _ & _ & _ & Ho & Hwf' & Hfr & Hdom & _).
  destruct (proj1 Hwf e el Hel) as (d & Hd & [nd Hnd]).
  destruct (setFocusToElement_enabled s e f el d nd Hwf Hen Hel Hd Hnd Hf)
    as (s1' & s'' & _ & Hrun' & _ & _ & _ & _ & Hc & Hx & He & Hr).
  rewrite Hrun in Hrun'. injection Hrun' as <-.
  exists s'. split_and!; try done.
  - by rewrite Hc.
  - unfold owned. rewrite He, lookup_insert_eq. cbn.
    by rewrite ?(proj1 (proj2 (proj2 (shifted_fields el)))).
  - rewrite Hr, lookup_insert_eq. by eexists.
  - intros e' Hne. unfold owned.
    rewrite He, lookup_insert_ne, owned_shift by done.
    destruct (focusElement (chart s)) as [old|]; cbn.
    + rewrite lookup_alter. case_decide as Ha; subst.
      * rewrite decide_True by done. by destruct (elems s !! e').
      * rewrite decide_False; [done|]. congruence.
    + by rewrite decide_False.
  - intros k Hne. rewrite Hr, lookup_insert_ne by done.
    assert (owned s e = focusBorder el) as -> by (unfold owned; by rewrite Hel).
    case_decide as Hk.
    + destruct Hk as [<-|<-]; cbn; [apply lookup_delete_eq|].
      destruct (focusBorder el); cbn; [|apply lookup_delete_eq].
      rewrite lookup_delete. case_decide; [done|apply lookup_delete_eq].
    + destruct (focusBorder el) as [k1|]; cbn.
      * rewrite lookup_delete_ne by (intros ->; tauto).
        destruct (focusElement (chart s) ≫= owned s) as [k2|]; cbn; [|done].
        rewrite lookup_delete_ne; [done|]. intros ->; tauto.
      * destruct (focusElement (chart s) ≫= owned s) as [k2|]; cbn; [|done].
        rewrite lookup_delete_ne; [done|]. intros ->; tauto.
  - intros e' f' [He' Hf']. split.
    + by apply (is_Some_fmap_eq element) with (y := elems s !! e').
    + intros d' Hd'. apply Hdom. by apply Hf'.
Qed.

Lemma overlay_owned s e k :
  owned s e = Some k → overlay s e = rects s !! k.
Proof. intros Ho. unfold overlay. by rewrite Ho. Qed.

(** Along every run the references resolve and the focus target is the
    only owner. *)
Lemma reachable_single_border s : reachable s → wf s ∧ single_border s.
Proof.
  induction 1 as [s (Hwf & Hfoc & Hr & Ho)|s s' _ [IHwf [IHa IHb]] Hstep].
  - split; [done|]. split.
    + intros e k. by rewrite Ho.
    + intros k. rewrite Hr, lookup_empty. by intros [? ?].
  - destruct Hstep as [s e f s' Hcall Hrun|s o]; [|done].
    destruct (enabled (options (chart s))) eqn:Hen.
    + destruct (setFocusToElement_owned s e f IHwf Hen Hcall)
        as (s'' & Hrun' & Hwf' & _ & Hfoc & Hx & Hoe & _ & Hoth & Hrs & _).
      rewrite Hrun in Hrun'. injection Hrun' as <-.
      split; [done|]. split.
      * intros e' k Hk. destruct (decide (e' = e)) as [->|Hne]; [done|].
        rewrite (Hoth e' Hne) in Hk. case_decide; [done|].
        by apply IHa in Hk.
      * intros k Hk. exists e. split; [done|].
        destruct (decide (k = nextRect s)) as [->|Hne]; [done|].
        rewrite (Hrs k Hne) in Hk. case_decide as Hd; [by destruct Hk|].
        destruct (IHb k Hk) as (e0 & Hf0 & Ho0).
        exfalso. apply Hd. right. rewrite Hf0. cbn. by rewrite Ho0.
    + destruct Hcall as [[el Hel] Hf].
      destruct (setFocusToElement_spec s e f el IHwf Hel Hf)
        as (s1 & s'' & _ & _ & Hrun' & _ & _ & _ & _ & _ & Hwf' & _ & _ & Hdis).
      rewrite Hrun in Hrun'. injection Hrun' as <-.
      destruct (Hdis Hen) as (Hc & He & Hr & _).
      split; [done|]. unfold single_border, owned. rewrite Hc, He, Hr.
      by split.
Qed.

Lemma example_store_wf firefox : wf (example_store firefox).
Proof.
  split; [|discriminate].
  intros e el Hel. unfold example_store in Hel. cbn in Hel.
  apply lookup_insert_Some in Hel as [[<- <-]|[_ Hel]].
  - exists 1%nat. split; [reflexivity|]. vm_compute; eauto.
  - apply lookup_insert_Some in Hel as [[<- <-]|[_ Hel]]; [|done].
    exists 0%nat. split; [reflexivity|]. vm_compute; eauto.
Qed.

(** * The rectangle in exact and in binary64 arithmetic *)

Lemma represents_Num q : represents (Num q) q.
Proof. by exists q. Qed.

Lemma lift2_exact (f : Q → Q → Q) a b x y :
  (∀ p p' r r', p == p' → r == r' → f p r == f p' r')%Q →
  represents a x → represents b y → num_lift2 f a b = exact (f x y).
Proof.
  intros Hf (p & -> & Hp) (r & -> & Hr). unfold exact. cbn. f_equal.
  apply Qred_complete. by apply Hf.
Qed.

Lemma exact_represents q : represents (exact q) q.
Proof. exists (Qred q). split; [done|]. apply Qred_correct. Qed.

Lemma add_exact a b x y :
  represents a x → represents b y → add a b = exact (x + y).
Proof. apply lift2_exact. intros ???? -> ->. reflexivity. Qed.

Lemma sub_exact a b x y :
  represents a x → represents b y → sub a b = exact (x - y).
Proof. apply lift2_exact. intros ???? -> ->. reflexivity. Qed.

Lemma mul_exact a b x y :
  represents a x → represents b y → mul a b = exact (x * y).
Proof. apply lift2_exact. intros ???? -> ->. reflexivity. Qed.

Lemma neg_exact a x : represents a x → neg a = exact (- x).
Proof.
  intros (p & -> & Hp). unfold exact. cbn. f_equal. apply Qred_complete.
  by rewrite Hp.
Qed.

Lemma translation_represents (t : option Q) :
  represents (translation (Num <$> t)) (default 0%Q t).
Proof.
  destruct t as [q|]; cbn; [|apply represents_Num].
  destruct (Qeq_bool q 0) eqn:Hq; cbn; [|apply represents_Num].
  exists 0%Q. split; [done|]. symmetry. by apply Qeq_bool_eq.
Qed.

Lemma pick_represents (m : option Q) :
  represents (pick (Num <$> m) (lit 3)) (pick m 3%Q).
Proof. destruct m; apply represents_Num. Qed.

Lemma isRotated_rotated (r : option Q) : isRotated (Num <$> r) = rotated r.
Proof. by destruct r. Qed.

Create HintDb represents.
#[local] Hint Resolve represents_Num exact_represents translation_represents
  pick_represents : represents.
#[local] Hint Extern 1 (represents (add _ _) _) => erewrite add_exact : represents.
#[local] Hint Extern 1 (represents (sub _ _) _) => erewrite sub_exact : represents.
#[local] Hint Extern 1 (represents (mul _ _) _) => erewrite mul_exact : represents.
#[local] Hint Extern 1 (represents (neg _) _) => erewrite neg_exact : represents.

Lemma borderRect_shape firefox name (x y w h : Q) (tx ty : option Q) rot ax ay
    (m : option Q) :
  name ≠ "text" →
  borderRect firefox name (mkBBox (Num x) (Num y) (Num w) (Num h))
    (Num <$> tx) (Num <$> ty) rot ax ay (Num <$> m) =
  mkBBox (exact (x + default 0 tx - pick m 3)%Q)
         (exact (y + default 0 ty - pick m 3)%Q)
         (exact (w + 2 * pick m 3)%Q)
         (exact (h + 2 * pick m 3)%Q).
Proof.
  intros Hname. unfold borderRect.
  destruct (String.eqb_spec name "text") as [|_]; [done|].
  cbn -[add sub mul lit translation pick].
  f_equal.
  - apply sub_exact; eauto with represents.
  - apply sub_exact; eauto with represents.
  - apply add_exact; eauto with represents.
  - apply add_exact; eauto with represents.
Qed.

Lemma borderRect_text firefox bx by' (w h x y : Q) tx ty (rot m : option Q) :
  borderRect firefox "text" (mkBBox bx by' (Num w) (Num h)) tx ty
    (Num <$> rot) (Num x) (Num y) (Num <$> m) =
  mkBBox
    (exact (x - w * 0.5 - pick m 3 + (if rotated rot then h * 0.068 else 0))%Q)
    (exact (y - h * 0.5 - pick m 3 +
            (if rotated rot then 0
             else - h * (if firefox then 0.25 else 0.068)))%Q)
    (exact (w + 2 * pick m 3)%Q)
    (exact (h + 2 * pick m 3)%Q).
Proof.
  unfold borderRect. rewrite isRotated_rotated.
  cbn -[add sub mul neg lit translation pick].
  destruct (rotated rot), firefox; f_equal;
    (apply add_exact; eauto 10 with represents).
Qed.

(** The same rectangle, operation by operation, in binary64. *)
Lemma borderRect_text_f64_formula firefox (bx by' w h x y m : float)
    tx ty rot :
  let b := borderRect firefox "text" (mkBBox bx by' w h) tx ty rot x y
             (Some m) in
  bb_x b = (x - w * 0.5 - m + (if isRotated rot then h * 0.068 else 0))%float
  ∧ bb_y b = (y - h * 0.5 - m +
              (if isRotated rot then 0
               else (- h) * (if firefox then 0.25 else 0.068)))%float.
Proof.
  cbv zeta. unfold borderRect. cbn -[isRotated].
  destruct (isRotated rot), firefox; split; reflexivity.
Qed.

Lemma borderRect_shape_f64_formula firefox name (x y w h ax ay : float)
    tx ty rot m :
  name ≠ "text" →
  borderRect firefox name (mkBBox x y w h) tx ty rot ax ay m =
  (mkBBox (x + translation tx - pick m 3) (y + translation ty - pick m 3)
          (w + 2 * pick m 3) (h + 2 * pick m 3))%float.
Proof.
  intros Hname. unfold borderRect.
  destruct (String.eqb_spec name "text") as [|_]; [done|]. reflexivity.
Qed.

(** ** The rectangle drawn from a box that was written to *)

Lemma add_zero_idem (a : number) : add (add a (lit 0)) (lit 0) = add a (lit 0).
Proof.
  destruct a as [q|]; cbn; [|done]. f_equal. apply Qred_complete.
  rewrite Qred_correct. ring.
Qed.

Lemma translation_no_offset (t : option number) :
  no_offset t → translation t = lit 0.
Proof.
  intros Ht. destruct t as [n|]; [|done]. unfold translation.
  by rewrite (Ht n eq_refl).
Qed.

(** The offsets added a second time leave the rectangle of a text, which
    is not placed by its box, and a rectangle placed by falsy offsets. *)
Lemma borderRect_translated firefox name (bb : BBox number) tx ty rot ax ay m :
  name = "text" ∨ (no_offset tx ∧ no_offset ty) →
  borderRect firefox name (translated bb tx ty) tx ty rot ax ay m =
  borderRect firefox name bb tx ty rot ax ay m.
Proof.
  intros Hcase. unfold borderRect, translated. cbn -[add sub mul neg lit].
  destruct Hcase as [->|[Hx Hy]]; [done|].
  rewrite (translation_no_offset _ Hx), (translation_no_offset _ Hy).
  by rewrite !add_zero_idem.
Qed.

Lemma borderRect_translated_size firefox name (bb : BBox number) tx ty rot ax
    ay m :
  bb_width (borderRect firefox name (translated bb tx ty) tx ty rot ax ay m)
    = bb_width (borderRect firefox name bb tx ty rot ax ay m)
  ∧ bb_height (borderRect firefox name (translated bb tx ty) tx ty rot ax ay m)
    = bb_height (borderRect firefox name bb tx ty rot ax ay m).
Proof. unfold borderRect, translated. by destruct (String.eqb name "text"). Qed.

(** The rectangle for an element as [addFocusBorder] left it. *)
Lemma border_shifted s s' el nd nd' margin style fb :
  isFirefox s' = isFirefox s → styledMode s' = styledMode s →
  nodeName nd' = nodeName nd →
  border s' (set_focusBorder fb (shifted el)) nd' margin style =
  {| rect_box := borderRect (isFirefox s) (nodeName nd) (bBox (shifted el))
                   (translateX el) (translateY el) (rotation el)
                   (attr_x el) (attr_y el) margin;
     rect_r := rect_r (border s el nd margin style);
     rect_class := rect_class (border s el nd margin style);
     rect_attrs := rect_attrs (border s el nd margin style);
     rect_added := rect_added (border s el nd margin style);
     rect_parent := rect_parent (border s el nd margin style) |}.
Proof.
  intros Hf Hs Hn. unfold border. cbn.
  destruct (shifted_fields el) as (_ & _ & _ & -> & -> & -> & -> & -> & ->).
  by rewrite Hf, Hs, Hn.
Qed.

Lemma border_shifted_same s s' el nd nd' margin style fb :
  isFirefox s' = isFirefox s → styledMode s' = styledMode s →
  nodeName nd' = nodeName nd →
  cacheKey el = None ∨ nodeName nd = "text"
  ∨ (no_offset (translateX el) ∧ no_offset (translateY el)) →
  border s' (set_focusBorder fb (shifted el)) nd' margin style =
  border s el nd margin style.
Proof.
  intros Hf Hs Hn Hcase.
  rewrite (border_shifted s s' el nd nd' margin style fb) by done.
  unfold border, shifted.
  destruct (cacheKey el) as [k|] eqn:Hk; [|done]. cbn.
  destruct Hcase as [?|Hcase]; [done|].
  rewrite borderRect_translated; [done|].
  destruct Hcase as [->|?]; [by left|by right].
Qed.

(** * The claims *)

(** C1: with focus borders enabled, after [setFocusToElement] on A and
    then on another element B, A owns no rectangle (the one it had is
    destroyed), B owns one that is in the document, and B is the chart's
    focus element. In every state a chart can reach, only the focus
    element owns a rectangle, every live rectangle is the one it owns, so
    that at most one is live, and at most one element is recorded as the
    focus element. *)
Theorem setFocusToElement_single_border s A B fA fB :
  wf s →
  enabled (options (chart s)) = true →
  A ≠ B →
  callable s A fA →
  callable s B fB →
  (∃ s1 s2 rc,
     setFocusToElement A fA s = Some (tt, s1)
     ∧ setFocusToElement B fB s1 = Some (tt, s2)
     ∧ owned s2 A = None
     ∧ overlay s2 B = Some rc
     ∧ focusElement (chart s2) = Some B
     ∧ ∀ k, owned s1 A = Some k → rects s2 !! k = None)
  ∧ ∀ r, reachable r →
      single_border r
      ∧ (∀ k1 k2, is_Some (rects r !! k1) → is_Some (rects r !! k2) → k1 = k2)
      ∧ (∀ e1 e2, focusElement (chart r) = Some e1 →
           focusElement (chart r) = Some e2 → e1 = e2).
Proof.
  intros Hwf Hen Hne HA HB. split.
  - destruct (setFocusToElement_owned s A fA Hwf Hen HA)
      as (s1 & Hrun1 & Hwf1 & Ho1 & Hfoc1 & Hx1 & HoA & _ & _ & _ & Hcall).
    assert (enabled (options (chart s1)) = true) as Hen1 by congruence.
    destruct (setFocusToElement_owned s1 B fB Hwf1 Hen1 (Hcall _ _ HB))
      as (s2 & Hrun2 & _ & _ & Hfoc2 & _ & HoB & [rc Hrc] & Hoth & Hrs & _).
    exists s1, s2, rc. split_and!; try done.
    + rewrite (Hoth A Hne), Hfoc1. by rewrite decide_True.
    + by rewrite (overlay_owned _ _ _ HoB).
    + intros k Hk. rewrite HoA in Hk. injection Hk as <-.
      rewrite Hrs by (rewrite Hx1; lia).
      rewrite decide_True; [done|]. right. rewrite Hfoc1. cbn. by rewrite HoA.
  - intros r Hr. destruct (reachable_single_border r Hr) as [_ Hsb].
    split; [done|]. split; [|congruence].
    intros k1 k2 H1 H2. destruct Hsb as [_ Hb].
    destruct (Hb k1 H1) as (e1 & Hf1 & Ho1), (Hb k2 H2) as (e2 & Hf2 & Ho2).
    congruence.
Qed.

Lemma setFocusToElement_single_border_witness :
  ∃ s1 s2 rc,
    setFocusToElement 0 None (example_store false) = Some (tt, s1)
    ∧ setFocusToElement 1 None s1 = Some (tt, s2)
    ∧ owned s2 0 = None
    ∧ overlay s2 1 = Some rc
    ∧ focusElement (chart s2) = Some 1%nat
    ∧ ∀ k, owned s1 0 = Some k → rects s2 !! k = None.
Proof.
  apply (setFocusToElement_single_border (example_store false) 0%nat 1%nat None None).
  - apply example_store_wf.
  - reflexivity.
  - discriminate.
  - split; [vm_compute; eauto | discriminate].
  - split; [vm_compute; eauto | discriminate].
Defined.

(** C2: a text element with bounding box width w and height h, attributes
    x and y and margin m gets a rectangle with origin
    (x - w*0.5 - m + (rotated ? h*0.068 : 0),
     y - h*0.5 - m + (rotated ? 0 : -h*(isFirefox ? 0.25 : 0.068))),
    where rotated means a rotation that is there and not zero: in exact
    arithmetic, and operation by operation in binary64. With w = 40,
    h = 10, x = 100, y = 50, m = 3 and no rotation the origin is
    (77, 41.32), and (77, 39.5) on Firefox: on the example chart, and to
    the bit in binary64. *)
Theorem addFocusBorder_text_geometry s this el d nd bx by' (w h x y : Q)
    (rot m : option Q) style :
  elems s !! this = Some el →
  element el = Some d →
  nodes s !! d = Some nd →
  nodeName nd = "text" →
  bBox el = mkBBox bx by' (Num w) (Num h) →
  attr_x el = Num x →
  attr_y el = Num y →
  rotation el = Num <$> rot →
  (∃ s' rc,
     addFocusBorder this (Num <$> m) style s = Some (tt, s')
     ∧ overlay s' this = Some rc
     ∧ bb_x (rect_box rc) =
         exact (x - w * 0.5 - pick m 3
                + (if rotated rot then h * 0.068 else 0))%Q
     ∧ bb_y (rect_box rc) =
         exact (y - h * 0.5 - pick m 3
                + (if rotated rot then 0
                   else - h * (if isFirefox s then 0.25 else 0.068)))%Q)
  ∧ (∀ firefox (fbx fby fw fh fx fy fm : float) ftx fty frot,
       let b := borderRect firefox "text" (mkBBox fbx fby fw fh) ftx fty frot
                  fx fy (Some fm) in
       bb_x b = (fx - fw * 0.5 - fm
                 + (if isRotated frot then fh * 0.068 else 0))%float
       ∧ bb_y b = (fy - fh * 0.5 - fm
                   + (if isRotated frot then 0
                      else (- fh) * (if firefox then 0.25 else 0.068)))%float)
  ∧ (∃ s' rc,
       addFocusBorder 1 (Some (lit 3)) None (example_store false) = Some (tt, s')
       ∧ overlay s' 1 = Some rc
       ∧ bb_x (rect_box rc) = exact 77 ∧ bb_y (rect_box rc) = exact 41.32)
  ∧ (∃ s' rc,
       addFocusBorder 1 (Some (lit 3)) None (example_store true) = Some (tt, s')
       ∧ overlay s' 1 = Some rc
       ∧ bb_x (rect_box rc) = exact 77 ∧ bb_y (rect_box rc) = exact 39.5)
  ∧ borderRect false "text" (mkBBox 80 42 40 10)%float None None None
      100%float 50%float (Some 3%float) = (mkBBox 77 41.32 46 16)%float
  ∧ borderRect true "text" (mkBBox 80 42 40 10)%float None None None
      100%float 50%float (Some 3%float) = (mkBBox 77 39.5 46 16)%float.
Proof.
  intros Hel Hd Hnd Hname Hbb Hx Hy Hrot. split_and!.
  - destruct (addFocusBorder_overlay s this el d nd (Num <$> m) style Hel Hd Hnd)
      as (s' & Hrun & _ & Hov).
    exists s', (border s el nd (Num <$> m) style).
    split; [done|]. split; [done|]. cbn. rewrite Hname, Hbb, Hx, Hy, Hrot.
    by rewrite borderRect_text.
  - intros. apply borderRect_text_f64_formula.
  - eexists _, _. split; [vm_compute; reflexivity|].
    split; [vm_compute; reflexivity|]. split; vm_compute; reflexivity.
  - eexists _, _. split; [vm_compute; reflexivity|].
    split; [vm_compute; reflexivity|]. split; vm_compute; reflexivity.
  - vm_compute; reflexivity.
  - vm_compute; reflexivity.
Qed.

Lemma addFocusBorder_text_geometry_witness :
  ∃ s' rc,
    addFocusBorder 1 (Num <$> Some 3%Q) None (example_store true) = Some (tt, s')
    ∧ overlay s' 1 = Some rc
    ∧ bb_x (rect_box rc) =
        exact (100 - 40 * 0.5 - pick (Some 3) 3
               + (if rotated None then 10 * 0.068 else 0))%Q
    ∧ bb_y (rect_box rc) =
        exact (50 - 10 * 0.5 - pick (Some 3) 3
               + (if rotated None then 0
                  else - 10 * (if isFirefox (example_store true)
                               then 0.25 else 0.068)))%Q.
Proof.
  apply (addFocusBorder_text_geometry (example_store true) 1%nat example_text
           1%nat (example_node "text") (lit 80) (lit 42) 40 10 100 50 None
           (Some 3%Q) None); reflexivity.
Defined.

(** C3: a non-text element with bounding box (x, y, w, h), translation
    offsets tx and ty (0 when absent) and margin m (3 when not provided)
    gets a rectangle with origin (x + tx - m, y + ty - m) and size
    (w + 2m, h + 2m): in exact arithmetic, and operation by operation in
    binary64, where an offset counts as absent when it is falsy. Bounding
    box (10, 20, 30, 5) with tx = 5, ty = 0 and m = 3 gives origin (12, 17)
    and size (36, 11), on the example chart and in binary64. *)
Theorem addFocusBorder_shape_geometry s this el d nd (x y w h : Q)
    (tx ty m : option Q) style :
  elems s !! this = Some el →
  element el = Some d →
  nodes s !! d = Some nd →
  nodeName nd ≠ "text" →
  bBox el = mkBBox (Num x) (Num y) (Num w) (Num h) →
  translateX el = Num <$> tx →
  translateY el = Num <$> ty →
  (∃ s' rc,
     addFocusBorder this (Num <$> m) style s = Some (tt, s')
     ∧ overlay s' this = Some rc
     ∧ rect_box rc =
         mkBBox (exact (x + default 0 tx - pick m 3)%Q)
                (exact (y + default 0 ty - pick m 3)%Q)
                (exact (w + 2 * pick m 3)%Q)
                (exact (h + 2 * pick m 3)%Q))
  ∧ (∀ firefox (fx fy fw fh fax fay : float) ftx fty frot fm,
       borderRect firefox (nodeName nd) (mkBBox fx fy fw fh) ftx fty frot
         fax fay fm =
       (mkBBox (fx + translation ftx - pick fm 3)
               (fy + translation fty - pick fm 3)
               (fw + 2 * pick fm 3) (fh + 2 * pick fm 3))%float)
  ∧ (∃ s' rc,
       addFocusBorder 0 (Some (lit 3)) None (example_store false) = Some (tt, s')
       ∧ overlay s' 0 = Some rc
       ∧ rect_box rc = mkBBox (lit 12) (lit 17) (lit 36) (lit 11))
  ∧ borderRect false "path" (mkBBox 10 20 30 5)%float
      (Some 5%float) (Some 0%float) None 10%float 20%float (Some 3%float)
    = (mkBBox 12 17 36 11)%float.
Proof.
  intros Hel Hd Hnd Hname Hbb Htx Hty. split_and!.
  - destruct (addFocusBorder_overlay s this el d nd (Num <$> m) style Hel Hd Hnd)
      as (s' & Hrun & _ & Hov).
    exists s', (border s el nd (Num <$> m) style).
    split; [done|]. split; [done|]. cbn. rewrite Hbb, Htx, Hty.
    by apply borderRect_shape.
  - intros. by apply borderRect_shape_f64_formula.
  - eexists _, _. split; [vm_compute; reflexivity|].
    split; vm_compute; reflexivity.
  - vm_compute; reflexivity.
Qed.

Lemma addFocusBorder_shape_geometry_witness :
  ∃ s' rc,
    addFocusBorder 0 (Num <$> Some 3%Q) None (example_store false) = Some (tt, s')
    ∧ overlay s' 0 = Some rc
    ∧ rect_box rc =
        mkBBox (exact (10 + default 0 (Some 5) - pick (Some 3) 3)%Q)
               (exact (20 + default 0 (Some 0) - pick (Some 3) 3)%Q)
               (exact (30 + 2 * pick (Some 3) 3)%Q)
               (exact (5 + 2 * pick (Some 3) 3)%Q).
Proof.
  apply (addFocusBorder_shape_geometry (example_store false) 0%nat example_shape
           0%nat (example_node "path") 10 20 30 5 (Some 5%Q) (Some 0%Q)
           (Some 3%Q) None);
    try reflexivity.
  discriminate.
Defined.

(** C4 at an input on which the code breaks it: [addFocusBorder] twice in
    a row, with the same arguments, on a label whose bounding box
    (10, 20, 30, 5) is kept in the cache and which is translated by 5
    along x. The first call draws (12, 17, 36, 11), as a single call
    does; the second draws (17, 17, 36, 11), from the box that lines 73
    and 74 of the first call left moved. *)
Theorem addFocusBorder_twice_drifts :
  ∃ s1 s2 rc1 rc2,
    addFocusBorder 2 (Some (lit 3)) None example_label_store = Some (tt, s1)
    ∧ overlay s1 2 = Some rc1
    ∧ addFocusBorder 2 (Some (lit 3)) None s1 = Some (tt, s2)
    ∧ overlay s2 2 = Some rc2
    ∧ rect_box rc1 = mkBBox (lit 12) (lit 17) (lit 36) (lit 11)
    ∧ rect_box rc2 = mkBBox (lit 17) (lit 17) (lit 36) (lit 11)
    ∧ rect_box rc2 ≠ rect_box rc1.
Proof.
  eexists _, _, _, _. split; [vm_compute; reflexivity|].
  split; [vm_compute; reflexivity|]. split; [vm_compute; reflexivity|].
  split; [vm_compute; reflexivity|]. split; [vm_compute; reflexivity|].
  split; [vm_compute; reflexivity|]. vm_compute. discriminate.
Qed.

(** C5: [removeFocusBorder] destroys the owned rectangle, if any, and
    clears the reference, so that the element owns none afterwards; on an
    element that owns none it returns with the store as it was, so a
    second remove in a row changes nothing either. It throws in neither
    case. *)
Theorem removeFocusBorder_clean s this el :
  elems s !! this = Some el →
  ∃ s', removeFocusBorder this s = Some (tt, s')
    ∧ owned s' this = None
    ∧ (∀ fb, focusBorder el = Some fb → rects s' !! fb = None)
    ∧ (focusBorder el = None → s' = s)
    ∧ removeFocusBorder this s' = Some (tt, s').
Proof.
  intros Hel. rewrite (removeFocusBorder_run _ _ _ Hel).
  eexists. split; [reflexivity|].
  destruct (focusBorder el) as [fb|] eqn:Hfb.
  - split; [|split; [|split]].
    + unfold owned. cbn. by rewrite lookup_insert_eq.
    + intros ? [= <-]. cbn. apply lookup_delete_eq.
    + done.
    + erewrite removeFocusBorder_run by (cbn; apply lookup_insert_eq). done.
  - split; [|split; [|split]].
    + unfold owned. by rewrite Hel.
    + done.
    + done.
    + by rewrite (removeFocusBorder_run _ _ _ Hel), Hfb.
Qed.

Lemma removeFocusBorder_clean_witness :
  ∃ s', removeFocusBorder 0 (example_store false) = Some (tt, s')
    ∧ owned s' 0 = None
    ∧ (∀ fb, focusBorder example_shape = Some fb → rects s' !! fb = None)
    ∧ (focusBorder example_shape = None → s' = example_store false)
    ∧ removeFocusBorder 0 s' = Some (tt, s').
Proof.
  apply (removeFocusBorder_clean (example_store false) 0%nat example_shape).
  reflexivity.
Defined.

(** C6: with [focusBorder.enabled] false, [setFocusToElement] draws no
    rectangle and records no focus element (the chart, the elements and
    the rectangles are as before), and it still calls [focus()] on the
    browser focus element, which is the [focusElement] argument or, without
    one, the element's own node, when that node can take focus; on a node
    that cannot, nothing is asked of the host. *)
Theorem setFocusToElement_disabled_no_border s e f el :
  enabled (options (chart s)) = false →
  elems s !! e = Some el →
  (∀ d, f = Some d ∨ (f = None ∧ element el = Some d) →
     is_Some (nodes s !! d)) →
  ∃ s', setFocusToElement e f s = Some (tt, s')
    ∧ chart s' = chart s ∧ elems s' = elems s
    ∧ rects s' = rects s ∧ nextRect s' = nextRect s
    ∧ (∀ d nd, f = Some d ∨ (f = None ∧ element el = Some d) →
         nodes s !! d = Some nd → focus nd = true →
         ∃ l, trace s' = trace s ++ l ++ [Focus d]
              ∧ (l = [] ∨ l = [AddEventListener d "focusin"]))
    ∧ (∀ d nd, f = Some d ∨ (f = None ∧ element el = Some d) →
         nodes s !! d = Some nd → focus nd = false → trace s' = trace s).
Proof.
  intros Hen Hel Hres. rewrite (setFocusToElement_disabled s e f el Hen Hel).
  destruct (setBrowserFocus_frame (options (chart s)) s
              (browserFocusElement f el))
    as (s' & Hrun & Hc & He & Hr & Hx & _).
  { intros d Hd. apply Hres. by apply browserFocusElement_target. }
  exists s'. split_and!; try done.
  - intros d nd Hd Hnd Hf. apply browserFocusElement_target in Hd.
    rewrite Hd in Hrun.
    destruct (setBrowserFocus_explicit (options (chart s)) s d nd Hnd Hf)
      as (s1 & Hrun1 & _ & Ht).
    rewrite Hrun in Hrun1. injection Hrun1 as <-.
    unfold focus_effects in Ht.
    destruct (has_listeners "focusin" nd); eexists; (split; [exact Ht|]);
      [by left|by right].
  - intros d nd Hd Hnd Hf. apply browserFocusElement_target in Hd.
    rewrite Hd, (setBrowserFocus_idle _ _ _ _ Hnd Hf) in Hrun.
    by injection Hrun as <-.
Qed.

Lemma setFocusToElement_disabled_no_border_witness :
  ∃ s', setFocusToElement 0 None example_disabled_store = Some (tt, s')
    ∧ focusElement (chart s') = None
    ∧ elems s' = elems (example_store false)
    ∧ rects s' = ∅
    ∧ nextRect s' = 0%nat
    ∧ ∃ l, trace s' = l ++ [Focus 0]
           ∧ (l = [] ∨ l = [AddEventListener 0 "focusin"]).
Proof.
  destruct (setFocusToElement_disabled_no_border example_disabled_store 0%nat
              None example_shape)
    as (s' & Hrun & Hc & He & Hr & Hx & Hfoc & _);
    [reflexivity | reflexivity | |].
  { intros d [[=]|[_ [= <-]]]. vm_compute. eauto. }
  exists s'. rewrite Hc, He, Hr, Hx. split_and!; try done.
  apply (Hfoc 0%nat (example_node "path")); [right|..]; done.
Defined.

(** C7 at an input on which the code breaks it: a node that can take
    focus and whose focusin listeners were all removed has no focusin
    listener registered, and [setFocusToElement] registers none before
    it calls [focus()]: the emptied array is still there in [hcEvents],
    and truthy. *)
Theorem setFocusToElement_focusin_emptied :
  ∃ nd s' nd',
    nodes example_emptied_store !! 0%nat = Some nd
    ∧ focus nd = true
    ∧ listeners "focusin" nd = []
    ∧ setFocusToElement 0 None example_emptied_store = Some (tt, s')
    ∧ nodes s' !! 0%nat = Some nd'
    ∧ listeners "focusin" nd' = []
    ∧ trace s' = [Focus 0].
Proof.
  eexists _, _, _. split; [vm_compute; reflexivity|].
  split; [reflexivity|]. split; [vm_compute; reflexivity|].
  split; [vm_compute; reflexivity|]. split; [vm_compute; reflexivity|].
  split; vm_compute; reflexivity.
Qed.

(** C8: when the renderer is in styled mode the rectangle that
    [addFocusBorder] draws has no stroke and no stroke-width attribute,
    whatever the style argument; otherwise the two are set to the stroke
    and the stroke width of the style argument, and to [undefined] without
    one. *)
Theorem addFocusBorder_stroke s this el d nd margin style :
  elems s !! this = Some el →
  element el = Some d →
  nodes s !! d = Some nd →
  (∃ s' rc,
     addFocusBorder this margin style (set_styledMode true s) = Some (tt, s')
     ∧ overlay s' this = Some rc
     ∧ rect_attrs rc !! "stroke" = None
     ∧ rect_attrs rc !! "stroke-width" = None)
  ∧ (∃ s' rc,
       addFocusBorder this margin style (set_styledMode false s) = Some (tt, s')
       ∧ overlay s' this = Some rc
       ∧ rect_attrs rc !! "stroke"
           = Some (match style with Some st => stroke st | None => VUndefined end)
       ∧ rect_attrs rc !! "stroke-width"
           = Some (match style with
                   | Some st => strokeWidth st
                   | None => VUndefined
                   end)).
Proof.
  intros Hel Hd Hnd. split.
  - destruct (addFocusBorder_overlay (set_styledMode true s) this el d nd margin
                style Hel Hd Hnd) as (s' & Hrun & _ & Hov).
    eexists s', _. split; [done|]. split; [done|]. cbn. by simplify_map_eq.
  - destruct (addFocusBorder_overlay (set_styledMode false s) this el d nd
                margin style Hel Hd Hnd) as (s' & Hrun & _ & Hov).
    eexists s', _. split; [done|]. split; [done|]. cbn.
    destruct style; by simplify_map_eq.
Qed.

Lemma addFocusBorder_stroke_witness :
  (∃ s' rc,
     addFocusBorder 0 None (Some example_stroke_style)
       (set_styledMode true (example_store false)) = Some (tt, s')
     ∧ overlay s' 0 = Some rc
     ∧ rect_attrs rc !! "stroke" = None
     ∧ rect_attrs rc !! "stroke-width" = None)
  ∧ (∃ s' rc,
       addFocusBorder 0 None (Some example_stroke_style)
         (set_styledMode false (example_store false)) = Some (tt, s')
       ∧ overlay s' 0 = Some rc
       ∧ rect_attrs rc !! "stroke" = Some (VString "#335cad")
       ∧ rect_attrs rc !! "stroke-width" = Some (VNumber (lit 2))).
Proof.
  apply (addFocusBorder_stroke (example_store false) 0%nat example_shape
           0%nat (example_node "path") None (Some example_stroke_style));
    reflexivity.
Defined.



(** C10: a call of [setFocusToElement] with [focusBorder.enabled] false
    leaves the chart's focus element as it was and removes no rectangle:
    the border drawn around A while borders were enabled is still A's, and
    in the document, after the options were switched off and focus was
    set to B. *)
Theorem setFocusToElement_disabled_keeps_border s A B fA fB o :
  wf s →
  enabled (options (chart s)) = true →
  enabled o = false →
  callable s A fA →
  callable s B fB →
  ∃ s1 s2 rc,
    setFocusToElement A fA s = Some (tt, s1)
    ∧ overlay s1 A = Some rc
    ∧ setFocusToElement B fB (set_options o s1) = Some (tt, s2)
    ∧ focusElement (chart s2) = Some A
    ∧ overlay s2 A = Some rc
    ∧ elems s2 = elems s1
    ∧ rects s2 = rects s1.
Proof.
  intros Hwf Hen Ho HA HB.
  destruct (setFocusToElement_owned s A fA Hwf Hen HA)
    as (s1 & Hrun1 & Hwf1 & _ & Hfoc1 & _ & HoA & [rc Hrc] & _ & _ & Hcall).
  destruct (Hcall _ _ HB) as [[el Hel] Hf].
  destruct (setFocusToElement_spec (set_options o s1) B fB el)
    as (t & s2 & _ & _ & Hrun2 & _ & _ & _ & _ & _ & _ & _ & _ & Hdis);
    [done..|].
  destruct (Hdis Ho) as (Hc & He & Hr & _). cbn in Hc, He, Hr.
  exists s1, s2, rc. split_and!; try done.
  - by rewrite (overlay_owned _ _ _ HoA).
  - by rewrite Hc.
  - unfold overlay, owned. rewrite He, Hr.
    change (overlay s1 A = Some rc). by rewrite (overlay_owned _ _ _ HoA).
Qed.

Lemma setFocusToElement_disabled_keeps_border_witness :
  ∃ s1 s2 rc,
    setFocusToElement 0 None (example_store false) = Some (tt, s1)
    ∧ overlay s1 0 = Some rc
    ∧ setFocusToElement 1 None
        (set_options (options (chart example_disabled_store)) s1)
      = Some (tt, s2)
    ∧ focusElement (chart s2) = Some 0%nat
    ∧ overlay s2 0 = Some rc
    ∧ elems s2 = elems s1
    ∧ rects s2 = rects s1.
Proof.
  apply (setFocusToElement_disabled_keeps_border (example_store false)
           0%nat 1%nat None None).
  - apply example_store_wf.
  - reflexivity.
  - reflexivity.
  - split; [vm_compute; eauto | discriminate].
  - split; [vm_compute; eauto | discriminate].
Defined.

(** * Further properties of the three methods *)

(** ** The browser-focus block, node by node *)

Lemma listeners_focused_node hide nd type :
  type ≠ "focusin" →
  listeners type (focused_node hide nd) = listeners type nd.
Proof.
  intros Hne. unfold focused_node, listeners. cbn.
  destruct (has_listeners "focusin" nd); [done|].
  rewrite lookup_insert_ne by done. destruct (hcEvents nd); [done|].
  cbn. by rewrite lookup_empty.
Qed.

(** A returning block read backwards: the renderer's side did not move. *)
Lemma setBrowserFocus_inv o target s s1 :
  setBrowserFocus o target s = Some (tt, s1) → document_only s s1.
Proof.
  intros Hrun.
  destruct (setBrowserFocus_frame o s target) as (s1' & Hrun' & Hdoc);
    [|congruence].
  intros d ->. destruct (nodes s !! d) eqn:Hnd; [by eexists|].
  revert Hrun. unfold setBrowserFocus, bind, getNode, deref. by rewrite Hnd.
Qed.

Lemma removeFocusBorder_inv e s s1 :
  removeFocusBorder e s = Some (tt, s1) →
  ∀ e', element <$> elems s1 !! e' = element <$> elems s !! e'.
Proof.
  intros Hrun e'. destruct (elems s !! e) as [el|] eqn:Hel.
  - destruct (removeFocusBorder_spec s e el Hel) as (s' & Hrun' & _ & _ & He & _).
    rewrite Hrun in Hrun'. injection Hrun' as <-. rewrite He. cbn.
    rewrite lookup_alter. case_decide; subst; [|done]. by rewrite Hel.
  - revert Hrun. unfold removeFocusBorder, bind, getElement, deref. by rewrite Hel.
Qed.

Lemma addFocusBorder_detached s this el margin style :
  elems s !! this = Some el →
  element el = None →
  addFocusBorder this margin style s = None.
Proof.
  intros Hel Hd.
  assert (∀ s0 el0, elems s0 !! this = Some el0 → focusBorder el0 = None →
            element el0 = None → addFocusBorder this margin style s0 = None)
    as Hun.
  { intros s0 el0 Hel0 Hfb0 Hd0. unfold addFocusBorder.
    rewrite (bind_run _ _ _ _ _ (getElement_run _ _ _ Hel0)), Hfb0.
    rewrite (bind_run _ _ s0 tt s0 eq_refl).
    unfold bind at 1, getBBox.
    by rewrite (bind_run _ _ _ _ _ (getElement_run _ _ _ Hel0)), Hd0. }
  destruct (focusBorder el) as [fb|] eqn:Hfb; [|by eapply Hun].
  rewrite (addFocusBorder_bordered _ _ _ _ _ _ Hel Hfb).
  eapply Hun; [apply lookup_insert_eq|done..].
Qed.

Lemma erase_empty k : erase k ∅ = ∅.
Proof. destruct k; cbn; [apply delete_empty|done]. Qed.

Lemma example_inert_store_wf : wf example_inert_store.
Proof.
  split; [|discriminate].
  intros e el Hel. cbn in Hel.
  apply lookup_insert_Some in Hel as [[<- <-]|[_ Hel]].
  - exists 1%nat. split; [reflexivity|]. vm_compute; eauto.
  - apply lookup_insert_Some in Hel as [[<- <-]|[_ Hel]]; [|done].
    exists 0%nat. split; [reflexivity|]. vm_compute; eauto.
Qed.

Lemma example_store_initial firefox : initial (example_store firefox).
Proof.
  split; [apply example_store_wf|]. split; [done|]. split; [done|].
  intros e. unfold owned. cbn.
  destruct (decide (e = 1%nat)) as [->|]; [done|].
  rewrite lookup_insert_ne by done.
  destruct (decide (e = 0%nat)) as [->|]; [done|].
  by rewrite lookup_insert_ne.
Qed.

(** ** The rectangle: what it does not depend on *)

Section Independence.
Context {N : Type} `{JSNumber N}.

Lemma borderRect_text_position firefox (bb bb' : BBox N) tx ty tx' ty' rot x y m :
  bb_width bb = bb_width bb' →
  bb_height bb = bb_height bb' →
  borderRect firefox "text" bb tx ty rot x y m =
  borderRect firefox "text" bb' tx' ty' rot x y m.
Proof. intros Hw Hh. unfold borderRect. cbn. by rewrite Hw, Hh. Qed.

Lemma borderRect_firefox name (bb : BBox N) tx ty rot x y m :
  name ≠ "text" ∨ isRotated rot = true →
  borderRect true name bb tx ty rot x y m =
  borderRect false name bb tx ty rot x y m.
Proof.
  intros Hcase. unfold borderRect.
  destruct (String.eqb_spec name "text") as [->|Hne]; [|done].
  destruct Hcase as [?|Hrot]; [done|]. by rewrite Hrot.
Qed.

Lemma borderRect_size firefox name (bb : BBox N) tx ty rot x y m :
  bb_width (borderRect firefox name bb tx ty rot x y m)
    = (bb_width bb + lit 2 * pick m (lit 3))%js
  ∧ bb_height (borderRect firefox name bb tx ty rot x y m)
    = (bb_height bb + lit 2 * pick m (lit 3))%js.
Proof. unfold borderRect. by destruct (String.eqb name "text"). Qed.

Lemma borderRect_falsy_offset firefox name (bb : BBox N) tx ty rot x y m :
  (∀ n, tx = Some n → toBoolean n = false) →
  (∀ n, ty = Some n → toBoolean n = false) →
  borderRect firefox name bb tx ty rot x y m =
  borderRect firefox name bb None None rot x y m.
Proof.
  intros Hx Hy. unfold borderRect.
  assert (translation tx = translation None) as ->.
  { destruct tx as [n|]; cbn; [|done]. by rewrite (Hx n). }
  assert (translation ty = translation None) as ->.
  { destruct ty as [n|]; cbn; [|done]. by rewrite (Hy n). }
  done.
Qed.

End Independence.

(** * Further properties: statements *)

(** X1: on a browser focus element that can take focus,
    [setFocusToElement] sets the inline outline to "none" exactly when
    [hideBrowserFocusOutline] is set and leaves it as it was otherwise,
    whether or not borders are enabled. The node keeps its name, its
    focus method and its listeners of every type but focusin, and no other
    node of the document changes. *)
Theorem setFocusToElement_outline s e f el d nd :
  wf s →
  elems s !! e = Some el →
  (∀ d', f = Some d' → is_Some (nodes s !! d')) →
  browserFocusElement f el = Some d →
  nodes s !! d = Some nd →
  focus nd = true →
  ∃ s' nd',
    setFocusToElement e f s = Some (tt, s')
    ∧ nodes s' !! d = Some nd'
    ∧ outline nd' = (if hideBrowserFocusOutline (options (chart s))
                     then Some "none" else outline nd)
    ∧ nodeName nd' = nodeName nd
    ∧ focus nd' = focus nd
    ∧ (∀ type, type ≠ "focusin" → listeners type nd' = listeners type nd)
    ∧ (∀ d', d' ≠ d → nodes s' !! d' = nodes s !! d').
Proof.
  intros Hwf Hel Hf Hd Hnd Hfoc.
  destruct (setFocusToElement_spec s e f el Hwf Hel Hf)
    as (s1 & s' & Hb & _ & Hrun & Hn & _).
  rewrite Hd in Hb.
  destruct (setBrowserFocus_explicit (options (chart s)) s d nd Hnd Hfoc)
    as (s1' & Hb' & Hn1 & _).
  rewrite Hb in Hb'. injection Hb' as <-.
  exists s', (focused_node (hideBrowserFocusOutline (options (chart s))) nd).
  rewrite Hn, Hn1. split_and!; try done.
  - apply lookup_insert_eq.
  - intros type Hne. by apply listeners_focused_node.
  - intros d' Hne. by rewrite lookup_insert_ne.
Qed.

Lemma setFocusToElement_outline_witness :
  ∃ s' nd',
    setFocusToElement 0 None (example_store false) = Some (tt, s')
    ∧ nodes s' !! 0%nat = Some nd'
    ∧ outline nd' = (if hideBrowserFocusOutline
                          (options (chart (example_store false)))
                     then Some "none" else outline (example_node "path"))
    ∧ nodeName nd' = nodeName (example_node "path")
    ∧ focus nd' = focus (example_node "path")
    ∧ (∀ type, type ≠ "focusin" →
         listeners type nd' = listeners type (example_node "path"))
    ∧ (∀ d', d' ≠ 0%nat →
         nodes s' !! d' = nodes (example_store false) !! d').
Proof.
  apply (setFocusToElement_outline (example_store false) 0%nat None
           example_shape 0%nat (example_node "path"));
    try reflexivity; try discriminate.
  apply example_store_wf.
Defined.

(** X2: when the browser focus element has no focus method,
    [setFocusToElement] asks nothing of the host and changes no node (no
    listener, no [focus()], no outline), also when the element's own node
    could take focus; with borders enabled the rectangle is drawn and the
    focus element recorded all the same. *)
Theorem setFocusToElement_unfocusable s e f el d nd :
  wf s →
  elems s !! e = Some el →
  (∀ d', f = Some d' → is_Some (nodes s !! d')) →
  browserFocusElement f el = Some d →
  nodes s !! d = Some nd →
  focus nd = false →
  ∃ s',
    setFocusToElement e f s = Some (tt, s')
    ∧ nodes s' = nodes s
    ∧ trace s' = trace s
    ∧ (enabled (options (chart s)) = true →
         focusElement (chart s') = Some e ∧ is_Some (overlay s' e)).
Proof.
  intros Hwf Hel Hf Hd Hnd Hfoc.
  destruct (setFocusToElement_spec s e f el Hwf Hel Hf)
    as (s1 & s' & Hb & _ & Hrun & Hn & Ht & _).
  rewrite Hd, (setBrowserFocus_idle _ _ _ _ Hnd Hfoc) in Hb. injection Hb as <-.
  exists s'. split_and!; try done.
  intros Hen.
  destruct (setFocusToElement_owned s e f Hwf Hen)
    as (s'' & Hrun' & _ & _ & Hfe & _ & Ho & Hr & _).
  { split; [by eexists|done]. }
  rewrite Hrun in Hrun'. injection Hrun' as <-.
  split; [done|]. by rewrite (overlay_owned _ _ _ Ho).
Qed.

Lemma setFocusToElement_unfocusable_witness :
  ∃ s',
    setFocusToElement 0 (Some 2%nat) example_inert_store = Some (tt, s')
    ∧ nodes s' = nodes example_inert_store
    ∧ trace s' = trace example_inert_store
    ∧ (enabled (options (chart example_inert_store)) = true →
         focusElement (chart s') = Some 0%nat ∧ is_Some (overlay s' 0)).
Proof.
  apply (setFocusToElement_unfocusable example_inert_store 0%nat (Some 2%nat)
           example_shape 2%nat example_inert_node); try reflexivity.
  - apply example_inert_store_wf.
  - intros d' [= <-]. vm_compute. eauto.
Defined.

(** X3: a [focusElement] argument takes the place of the element's own
    node: the listener, [focus()] and the outline go to the supplied node
    and the element's own node is left as it was, while the rectangle is
    drawn around [svgElement], which becomes the chart's focus element. *)
Theorem setFocusToElement_focusElement_argument s e el d0 d nd :
  wf s →
  enabled (options (chart s)) = true →
  elems s !! e = Some el →
  element el = Some d0 →
  nodes s !! d = Some nd →
  focus nd = true →
  d ≠ d0 →
  ∃ s',
    setFocusToElement e (Some d) s = Some (tt, s')
    ∧ nodes s' !! d0 = nodes s !! d0
    ∧ trace s' = trace s ++ focus_effects d nd
    ∧ nodes s' !! d
        = Some (focused_node (hideBrowserFocusOutline (options (chart s))) nd)
    ∧ focusElement (chart s') = Some e
    ∧ is_Some (overlay s' e).
Proof.
  intros Hwf Hen Hel Hd0 Hnd Hfoc Hne.
  assert (∀ d', Some d = Some d' → is_Some (nodes s !! d')) as Hf.
  { intros d' [= <-]. by eexists. }
  destruct (setFocusToElement_spec s e (Some d) el Hwf Hel Hf)
    as (s1 & s' & Hb & _ & Hrun & Hn & Ht & _).
  change (browserFocusElement (Some d) el) with (Some d) in Hb.
  destruct (setBrowserFocus_explicit (options (chart s)) s d nd Hnd Hfoc)
    as (s1' & Hb' & Hn1 & Ht1).
  rewrite Hb in Hb'. injection Hb' as <-.
  destruct (setFocusToElement_owned s e (Some d) Hwf Hen)
    as (s'' & Hrun' & _ & _ & Hfe & _ & Ho & Hr & _).
  { split; [by eexists|done]. }
  rewrite Hrun in Hrun'. injection Hrun' as <-.
  exists s'. rewrite Hn, Ht, Hn1, Ht1. split_and!; try done.
  - by rewrite lookup_insert_ne.
  - apply lookup_insert_eq.
  - by rewrite (overlay_owned _ _ _ Ho).
Qed.

Lemma setFocusToElement_focusElement_argument_witness :
  ∃ s',
    setFocusToElement 0 (Some 1%nat) (example_store false) = Some (tt, s')
    ∧ nodes s' !! 0%nat = nodes (example_store false) !! 0%nat
    ∧ trace s' = trace (example_store false)
                   ++ focus_effects 1 (example_node "text")
    ∧ nodes s' !! 1%nat
        = Some (focused_node
                  (hideBrowserFocusOutline (options (chart (example_store false))))
                  (example_node "text"))
    ∧ focusElement (chart s') = Some 0%nat
    ∧ is_Some (overlay s' 0).
Proof.
  apply (setFocusToElement_focusElement_argument (example_store false) 0%nat
           example_shape 0%nat 1%nat (example_node "text"));
    try reflexivity; try discriminate.
  apply example_store_wf.
Defined.

(** X4: the rectangle [addFocusBorder] draws carries the class
    highcharts-focus-border and no other, has zIndex 99, is added to the
    document as a child of the element's parent group, and has no
    attribute besides zIndex and, outside styled mode, stroke and
    stroke-width. *)
Theorem addFocusBorder_decoration s this el d nd margin style :
  elems s !! this = Some el →
  element el = Some d →
  nodes s !! d = Some nd →
  ∃ s' rc,
    addFocusBorder this margin style s = Some (tt, s')
    ∧ overlay s' this = Some rc
    ∧ rect_class rc = ["highcharts-focus-border"]
    ∧ rect_attrs rc !! "zIndex" = Some (VNumber (lit 99))
    ∧ rect_added rc = true
    ∧ rect_parent rc = parentGroup el
    ∧ (∀ key, is_Some (rect_attrs rc !! key) →
         key = "zIndex"
         ∨ (styledMode s = false ∧ (key = "stroke" ∨ key = "stroke-width"))).
Proof.
  intros Hel Hd Hnd.
  destruct (addFocusBorder_overlay s this el d nd margin style Hel Hd Hnd)
    as (s' & Hrun & _ & Hov).
  exists s', (border s el nd margin style). split; [done|]. split; [done|].
  cbn. split_and!; try done.
  - by destruct (styledMode s); simplify_map_eq.
  - intros key. destruct (styledMode s).
    + rewrite lookup_insert. case_decide; [by left|].
      rewrite lookup_empty. by intros [? ?].
    + rewrite !lookup_insert. repeat case_decide; subst; eauto.
      rewrite lookup_empty. by intros [? ?].
Qed.

Lemma addFocusBorder_decoration_witness :
  ∃ s' rc,
    addFocusBorder 0 None None (example_store false) = Some (tt, s')
    ∧ overlay s' 0 = Some rc
    ∧ rect_class rc = ["highcharts-focus-border"]
    ∧ rect_attrs rc !! "zIndex" = Some (VNumber (lit 99))
    ∧ rect_added rc = true
    ∧ rect_parent rc = parentGroup example_shape
    ∧ (∀ key, is_Some (rect_attrs rc !! key) →
         key = "zIndex"
         ∨ (styledMode (example_store false) = false
            ∧ (key = "stroke" ∨ key = "stroke-width"))).
Proof.
  apply (addFocusBorder_decoration (example_store false) 0%nat example_shape
           0%nat (example_node "path") None None); reflexivity.
Defined.

(** X5: the rectangle of a text element does not depend on where its
    bounding box lies nor on its translation offsets: the same element
    with another bounding-box origin and other [translateX] and
    [translateY] gets the same rectangle, in exact arithmetic and in
    binary64. *)
Theorem addFocusBorder_text_ignores_position s this el d nd margin style
    x y tx ty :
  elems s !! this = Some el →
  element el = Some d →
  nodes s !! d = Some nd →
  nodeName nd = "text" →
  (∃ s1 s2 rc,
     addFocusBorder this margin style s = Some (tt, s1)
     ∧ overlay s1 this = Some rc
     ∧ addFocusBorder this margin style
         (set_elems (<[this := move_to x y tx ty el]> (elems s)) s)
       = Some (tt, s2)
     ∧ overlay s2 this = Some rc)
  ∧ (∀ firefox (fbb fbb' : BBox float) ftx fty ftx' fty' frot fx fy fm,
       bb_width fbb = bb_width fbb' →
       bb_height fbb = bb_height fbb' →
       borderRect firefox "text" fbb ftx fty frot fx fy fm =
       borderRect firefox "text" fbb' ftx' fty' frot fx fy fm).
Proof.
  intros Hel Hd Hnd Hname.
  split; [|intros; by apply borderRect_text_position].
  destruct (addFocusBorder_overlay s this el d nd margin style Hel Hd Hnd)
    as (s1 & Hrun1 & _ & Hov1).
  destruct (addFocusBorder_overlay
              (set_elems (<[this := move_to x y tx ty el]> (elems s)) s)
              this (move_to x y tx ty el) d nd margin style)
    as (s2 & Hrun2 & _ & Hov2); [apply lookup_insert_eq|done..|].
  exists s1, s2, (border s el nd margin style). split_and!; try done.
  rewrite Hov2. f_equal. unfold border. cbn. rewrite Hname.
  by rewrite (borderRect_text_position _ _ (bBox el) _ _ (translateX el)
                (translateY el)).
Qed.

Lemma addFocusBorder_text_ignores_position_witness :
  (∃ s1 s2 rc,
     addFocusBorder 1 None None (example_store false) = Some (tt, s1)
     ∧ overlay s1 1 = Some rc
     ∧ addFocusBorder 1 None None
         (set_elems (<[1%nat := move_to (lit 0) (lit 0) (Some (lit 25)) None
                                  example_text]>
                       (elems (example_store false))) (example_store false))
       = Some (tt, s2)
     ∧ overlay s2 1 = Some rc)
  ∧ (∀ firefox (fbb fbb' : BBox float) ftx fty ftx' fty' frot fx fy fm,
       bb_width fbb = bb_width fbb' →
       bb_height fbb = bb_height fbb' →
       borderRect firefox "text" fbb ftx fty frot fx fy fm =
       borderRect firefox "text" fbb' ftx' fty' frot fx fy fm).
Proof.
  apply (addFocusBorder_text_ignores_position (example_store false) 1%nat
           example_text 1%nat (example_node "text")); reflexivity.
Defined.

(** X6: the size of the rectangle is the bounding box's width and height
    plus twice the padding (the margin, or 3 when it is not given), for
    text and for other elements alike, whatever the rotation, the
    translation and the browser, in exact arithmetic and in binary64; for
    a rational width w, height h and margin m it is (w + 2m, h + 2m). *)
Theorem addFocusBorder_size s this el d nd margin style :
  elems s !! this = Some el →
  element el = Some d →
  nodes s !! d = Some nd →
  (∃ s' rc,
     addFocusBorder this margin style s = Some (tt, s')
     ∧ overlay s' this = Some rc
     ∧ bb_width (rect_box rc)
         = (bb_width (bBox el) + lit 2 * pick margin (lit 3))%js
     ∧ bb_height (rect_box rc)
         = (bb_height (bBox el) + lit 2 * pick margin (lit 3))%js
     ∧ (∀ (w h : Q) (m : option Q),
          bb_width (bBox el) = Num w → bb_height (bBox el) = Num h →
          margin = Num <$> m →
          bb_width (rect_box rc) = exact (w + 2 * pick m 3)%Q
          ∧ bb_height (rect_box rc) = exact (h + 2 * pick m 3)%Q))
  ∧ (∀ firefox name (fbb : BBox float) ftx fty frot fx fy fm,
       bb_width (borderRect firefox name fbb ftx fty frot fx fy fm)
         = (bb_width fbb + 2 * pick fm 3)%float
       ∧ bb_height (borderRect firefox name fbb ftx fty frot fx fy fm)
         = (bb_height fbb + 2 * pick fm 3)%float).
Proof.
  intros Hel Hd Hnd.
  split; [|intros;
    exact (borderRect_size firefox name fbb ftx fty frot fx fy fm)].
  destruct (addFocusBorder_overlay s this el d nd margin style Hel Hd Hnd)
    as (s' & Hrun & _ & Hov).
  exists s', (border s el nd margin style). split; [done|]. split; [done|].
  cbn -[add mul lit pick].
  destruct (borderRect_size (isFirefox s) (nodeName nd) (bBox el) (translateX el)
              (translateY el) (rotation el) (attr_x el) (attr_y el) margin)
    as [Hw Hh].
  split; [done|]. split; [done|].
  intros w h m Hbw Hbh ->. rewrite Hw, Hh, Hbw, Hbh.
  split; apply add_exact; eauto with represents.
Qed.

Lemma addFocusBorder_size_witness :
  (∃ s' rc,
     addFocusBorder 1 None None (example_store false) = Some (tt, s')
     ∧ overlay s' 1 = Some rc
     ∧ bb_width (rect_box rc)
         = (bb_width (bBox example_text) + lit 2 * pick None (lit 3))%js
     ∧ bb_height (rect_box rc)
         = (bb_height (bBox example_text) + lit 2 * pick None (lit 3))%js
     ∧ (∀ (w h : Q) (m : option Q),
          bb_width (bBox example_text) = Num w →
          bb_height (bBox example_text) = Num h →
          None = Num <$> m →
          bb_width (rect_box rc) = exact (w + 2 * pick m 3)%Q
          ∧ bb_height (rect_box rc) = exact (h + 2 * pick m 3)%Q))
  ∧ (∀ firefox name (fbb : BBox float) ftx fty frot fx fy fm,
       bb_width (borderRect firefox name fbb ftx fty frot fx fy fm)
         = (bb_width fbb + 2 * pick fm 3)%float
       ∧ bb_height (borderRect firefox name fbb ftx fty frot fx fy fm)
         = (bb_height fbb + 2 * pick fm 3)%float).
Proof.
  apply (addFocusBorder_size (example_store false) 1%nat example_text 1%nat
           (example_node "text") None None); reflexivity.
Defined.

(** X7: [H.isFirefox] matters for text that is not rotated only: an
    element that is not a text, or whose rotation is truthy, gets the same
    rectangle in Firefox and elsewhere, in exact arithmetic and in
    binary64. *)
Theorem addFocusBorder_firefox_only_upright_text s this el d nd margin style b :
  elems s !! this = Some el →
  element el = Some d →
  nodes s !! d = Some nd →
  nodeName nd ≠ "text" ∨ isRotated (rotation el) = true →
  (∃ s1 s2 rc,
     addFocusBorder this margin style s = Some (tt, s1)
     ∧ overlay s1 this = Some rc
     ∧ addFocusBorder this margin style (set_isFirefox b s) = Some (tt, s2)
     ∧ overlay s2 this = Some rc)
  ∧ (∀ name (fbb : BBox float) ftx fty frot fx fy fm,
       name ≠ "text" ∨ isRotated frot = true →
       borderRect true name fbb ftx fty frot fx fy fm =
       borderRect false name fbb ftx fty frot fx fy fm).
Proof.
  intros Hel Hd Hnd Hcase.
  split; [|intros; by apply borderRect_firefox].
  destruct (addFocusBorder_overlay s this el d nd margin style Hel Hd Hnd)
    as (s1 & Hrun1 & _ & Hov1).
  destruct (addFocusBorder_overlay (set_isFirefox b s) this el d nd margin style
              Hel Hd Hnd) as (s2 & Hrun2 & _ & Hov2).
  exists s1, s2, (border s el nd margin style). split_and!; try done.
  rewrite Hov2. f_equal. unfold border. cbn. f_equal.
  destruct b, (isFirefox s); try done; [|symmetry]; by apply borderRect_firefox.
Qed.

Lemma addFocusBorder_firefox_only_upright_text_witness :
  (∃ s1 s2 rc,
     addFocusBorder 0 None None (example_store false) = Some (tt, s1)
     ∧ overlay s1 0 = Some rc
     ∧ addFocusBorder 0 None None (set_isFirefox true (example_store false))
       = Some (tt, s2)
     ∧ overlay s2 0 = Some rc)
  ∧ (∀ name (fbb : BBox float) ftx fty frot fx fy fm,
       name ≠ "text" ∨ isRotated frot = true →
       borderRect true name fbb ftx fty frot fx fy fm =
       borderRect false name fbb ftx fty frot fx fy fm).
Proof.
  apply (addFocusBorder_firefox_only_upright_text (example_store false) 0%nat
           example_shape 0%nat (example_node "path") None None true);
    try reflexivity.
  left. discriminate.
Defined.

(** X8: [addFocusBorder] touches nothing but its own element, its
    rectangles and the bounding box it read. The chart (its focus element
    included), the document and what was asked of the host stay as they
    were, and the element gets its new [focusBorder]. A bounding box that
    is kept in the cache is left moved by the translation offsets (lines
    73 and 74 assign to the cached object), for the element and for every
    wrapper with the same cache key; a box that is not cached, and the
    wrappers with another key or none, are as before. Every rectangle
    other than the element's previous one is left in place. *)
Theorem addFocusBorder_frame s this el d nd margin style :
  elems s !! this = Some el →
  element el = Some d →
  nodes s !! d = Some nd →
  ∃ s' el',
    addFocusBorder this margin style s = Some (tt, s')
    ∧ chart s' = chart s
    ∧ nodes s' = nodes s
    ∧ trace s' = trace s
    ∧ elems s' !! this = Some el'
    ∧ focusBorder el' = Some (nextRect s)
    ∧ set_bBox (bBox el) (set_focusBorder None el') = set_focusBorder None el
    ∧ bBox el' = match cacheKey el with
                 | Some _ => translated (bBox el) (translateX el) (translateY el)
                 | None => bBox el
                 end
    ∧ (∀ e el0, e ≠ this → elems s !! e = Some el0 →
         elems s' !! e =
           Some (if decide (is_Some (cacheKey el) ∧ cacheKey el0 = cacheKey el)
                 then set_bBox (translated (bBox el) (translateX el)
                                  (translateY el)) el0
                 else el0))
    ∧ (∀ e, elems s !! e = None → elems s' !! e = None)
    ∧ (∀ k, focusBorder el ≠ Some k → k ≠ nextRect s →
         rects s' !! k = rects s !! k).
Proof.
  intros Hel Hd Hnd.
  destruct (addFocusBorder_run s this el d nd margin style Hel Hd Hnd)
    as (s' & Hrun & Hc & Hn & Ht & _ & _ & _ & He & Hr).
  exists s', (set_focusBorder (Some (nextRect s)) (shifted el)).
  rewrite He, Hr. split_and!; try done.
  - apply lookup_insert_eq.
  - unfold shifted. by destruct (cacheKey el); destruct el.
  - unfold shifted. by destruct (cacheKey el).
  - intros e el0 Hne Hel0. rewrite lookup_insert_ne by done.
    by apply shift_bBox_other.
  - intros e Hnone. assert (e ≠ this) by congruence.
    rewrite lookup_insert_ne by done.
    pose proof (proj1 (shift_bBox_fields el (elems s) e)) as Hfr.
    rewrite Hnone in Hfr. by destruct (shift_bBox el (elems s) !! e).
  - intros k Hk Hne. rewrite lookup_insert_ne by done.
    destruct (focusBorder el) as [fb|]; cbn; [|done].
    rewrite lookup_delete_ne; [done|]. congruence.
Qed.

Lemma addFocusBorder_frame_witness :
  ∃ s' el',
    addFocusBorder 2 None None example_label_store = Some (tt, s')
    ∧ chart s' = chart example_label_store
    ∧ nodes s' = nodes example_label_store
    ∧ trace s' = trace example_label_store
    ∧ elems s' !! 2%nat = Some el'
    ∧ focusBorder el' = Some 0%nat
    ∧ bBox el' = mkBBox (lit 15) (lit 20) (lit 30) (lit 5)
    ∧ elems s' !! 3%nat
        = Some (set_bBox (mkBBox (lit 15) (lit 20) (lit 30) (lit 5))
                  example_label)
    ∧ elems s' !! 1%nat = Some example_text
    ∧ elems s' !! 0%nat = Some example_shape.
Proof.
  destruct (addFocusBorder_frame example_label_store 2%nat example_label 2%nat
              (example_node "SPAN") None None)
    as (s' & el' & Hrun & Hc & Hn & Ht & Hel' & Hfb & _ & Hbb & Hoth & _);
    [reflexivity..|].
  exists s', el'. split_and!; try done.
  - exact (Hoth 3%nat example_label ltac:(done) eq_refl).
  - exact (Hoth 1%nat example_text ltac:(done) eq_refl).
  - exact (Hoth 0%nat example_shape ltac:(done) eq_refl).
Defined.

(** X9: [removeFocusBorder] touches nothing but its own element's
    rectangle and reference: the chart keeps its focus element, even when
    that is the element whose border is removed; the document and the
    host are not involved; other elements and other rectangles stay as
    they were, and no rectangle is made. *)
Theorem removeFocusBorder_frame s this el :
  elems s !! this = Some el →
  ∃ s' el',
    removeFocusBorder this s = Some (tt, s')
    ∧ chart s' = chart s
    ∧ nodes s' = nodes s
    ∧ trace s' = trace s
    ∧ nextRect s' = nextRect s
    ∧ (∀ e, e ≠ this → elems s' !! e = elems s !! e)
    ∧ elems s' !! this = Some el'
    ∧ set_focusBorder None el' = set_focusBorder None el
    ∧ (∀ k, focusBorder el ≠ Some k → rects s' !! k = rects s !! k).
Proof.
  intros Hel.
  destruct (removeFocusBorder_spec s this el Hel)
    as (s' & Hrun & (Hc & Hn & Ht & _) & Hx & He & Hr).
  exists s', (set_focusBorder None el). rewrite He, Hr. cbn.
  split_and!; try done.
  - intros e Hne. by rewrite lookup_alter_ne.
  - by rewrite lookup_alter_eq, Hel.
  - intros k Hk. destruct (focusBorder el) as [fb|]; cbn; [|done].
    rewrite lookup_delete_ne; [done|]. congruence.
Qed.

Lemma removeFocusBorder_frame_witness :
  ∃ s' el',
    removeFocusBorder 0 example_focused_store = Some (tt, s')
    ∧ focusElement (chart s') = Some 0%nat
    ∧ chart s' = chart example_focused_store
    ∧ nodes s' = nodes example_focused_store
    ∧ trace s' = trace example_focused_store
    ∧ nextRect s' = nextRect example_focused_store
    ∧ (∀ e, e ≠ 0%nat → elems s' !! e = elems example_focused_store !! e)
    ∧ elems s' !! 0%nat = Some el'
    ∧ set_focusBorder None el' = example_shape
    ∧ (∀ k, Some 0%nat ≠ Some k →
         rects s' !! k = rects example_focused_store !! k).
Proof.
  destruct (removeFocusBorder_frame example_focused_store 0%nat
              (set_focusBorder (Some 0%nat) example_shape))
    as (s' & el' & Hrun & Hc & Hn & Ht & Hx & Hoth & Hel' & Hsame & Hr);
    [vm_compute; reflexivity|].
  exists s', el'. split_and!; try done. by rewrite Hc.
Defined.

(** X10: [addFocusBorder] followed by [removeFocusBorder] on an element
    that had no border gives back the store but for what lines 73 and 74
    wrote to a cached bounding box: the same rectangles, chart and
    document, and the same elements but for that box; for an element whose
    box is not cached the store is as it was. Only a rectangle was made
    and destroyed in between. *)
Theorem addFocusBorder_removeFocusBorder s this el d nd margin style :
  elems s !! this = Some el →
  focusBorder el = None →
  element el = Some d →
  nodes s !! d = Some nd →
  rects s !! nextRect s = None →
  ∃ s1 s2,
    addFocusBorder this margin style s = Some (tt, s1)
    ∧ is_Some (overlay s1 this)
    ∧ removeFocusBorder this s1 = Some (tt, s2)
    ∧ s2 = set_rects (rects s) (S (nextRect s))
             (set_elems (shift_bBox el (elems s)) s)
    ∧ (cacheKey el = None → s2 = set_rects (rects s) (S (nextRect s)) s).
Proof.
  intros Hel Hfb Hd Hnd Hfresh.
  destruct (addFocusBorder_run s this el d nd margin style Hel Hd Hnd)
    as (s1 & Hrun1 & Hc1 & Hn1 & Ht1 & Hs1 & Hf1 & Hx1 & He1 & Hr1).
  assert (elems s1 !! this
          = Some (set_focusBorder (Some (nextRect s)) (shifted el)))
    as Hel1 by (by rewrite He1, lookup_insert_eq).
  pose proof (removeFocusBorder_run _ _ _ Hel1) as Hrun2. cbn in Hrun2.
  eexists s1, _. split; [done|]. split.
  { unfold overlay, owned. rewrite Hel1. cbn. rewrite Hr1, lookup_insert_eq.
    by eexists. }
  split; [exact Hrun2|].
  match goal with |- ?s2 = _ ∧ _ =>
    assert (s2 = set_rects (rects s) (S (nextRect s))
                   (set_elems (shift_bBox el (elems s)) s)) as Hback
  end.
  { unfold set_elems, set_rects. cbn.
    rewrite He1, Hr1, Hfb, Hc1, Hn1, Ht1, Hs1, Hf1, Hx1. cbn.
    rewrite insert_insert_eq, delete_insert_eq, (delete_id _ _ Hfresh).
    change (set_focusBorder None (set_focusBorder (Some (nextRect s))
                                    (shifted el)))
      with (set_focusBorder None (shifted el)).
    rewrite set_focusBorder_id
      by (by rewrite (proj1 (proj2 (proj2 (shifted_fields el))))).
    by rewrite (insert_id _ _ _ (shift_bBox_this _ _ _ Hel)). }
  split; [exact Hback|].
  intros Hk. rewrite Hback, (shift_bBox_uncached _ _ Hk). by destruct s.
Qed.

Lemma addFocusBorder_removeFocusBorder_witness :
  ∃ s1 s2,
    addFocusBorder 0 None None (example_store false) = Some (tt, s1)
    ∧ is_Some (overlay s1 0)
    ∧ removeFocusBorder 0 s1 = Some (tt, s2)
    ∧ s2 = set_rects ∅ 1 (example_store false).
Proof.
  destruct (addFocusBorder_removeFocusBorder (example_store false) 0%nat
              example_shape 0%nat (example_node "path") None None)
    as (s1 & s2 & Hrun1 & Hov & Hrun2 & _ & Hback); [reflexivity..|].
  exists s1, s2. split_and!; try done. by apply Hback.
Defined.

(** X11: [setFocusToElement] twice on the same element, with borders
    enabled, replaces the element's rectangle by a new one: the first is
    destroyed, the second is in the document, and the element stays the
    chart's focus element. The new rectangle is equal to the old one when
    the element is a text or its bounding box is not kept in the cache. *)
Theorem setFocusToElement_refocus s e f el d nd :
  wf s →
  enabled (options (chart s)) = true →
  elems s !! e = Some el →
  element el = Some d →
  nodes s !! d = Some nd →
  (∀ d', f = Some d' → is_Some (nodes s !! d')) →
  ∃ s1 s2 k1 k2 rc1 rc2,
    setFocusToElement e f s = Some (tt, s1)
    ∧ setFocusToElement e f s1 = Some (tt, s2)
    ∧ owned s1 e = Some k1 ∧ rects s1 !! k1 = Some rc1
    ∧ owned s2 e = Some k2 ∧ rects s2 !! k2 = Some rc2
    ∧ k1 ≠ k2
    ∧ rects s2 !! k1 = None
    ∧ focusElement (chart s2) = Some e
    ∧ (cacheKey el = None ∨ nodeName nd = "text" → rc2 = rc1).
Proof.
  intros Hwf Hen Hel Hd Hnd Hf.
  destruct (setFocusToElement_spec s e f el Hwf Hel Hf)
    as (t1 & s1 & _ & Hdoc1 & Hrun1 & Hn1 & _ & Hs1 & Hf1 & Ho1 & Hwf1 & _
        & Hdom1 & _).
  destruct (setFocusToElement_enabled s e f el d nd Hwf Hen Hel Hd Hnd Hf)
    as (t1' & s1' & _ & Hrun1' & _ & _ & _ & _ & Hc1 & Hx1 & He1 & Hr1).
  rewrite Hrun1 in Hrun1'. injection Hrun1' as <-.
  assert (elems s1 !! e
          = Some (set_focusBorder (Some (nextRect s)) (shifted el)))
    as Hel1 by (by rewrite He1, lookup_insert_eq).
  destruct Hdoc1 as (_ & _ & _ & _ & _ & _ & Hname).
  specialize (Hname d). rewrite <- Hn1, Hnd in Hname.
  destruct (nodes s1 !! d) as [nd1|] eqn:Hnd1; [|done]. injection Hname as Hname.
  destruct (setFocusToElement_enabled s1 e f _ d nd1 Hwf1 ltac:(congruence)
              Hel1)
    as (t2 & s2 & _ & Hrun2 & _ & _ & _ & _ & Hc2 & Hx2 & He2 & Hr2);
    [cbn; by rewrite (proj1 (shifted_fields el))|done| |].
  { intros d' Hd'. apply Hdom1. by apply Hf. }
  exists s1, s2, (nextRect s), (nextRect s1),
    (border s el nd (margin (options (chart s)))
       (Some (focusBorderStyle (options (chart s))))),
    (border s1 (set_focusBorder (Some (nextRect s)) (shifted el)) nd1
       (margin (options (chart s1)))
       (Some (focusBorderStyle (options (chart s1))))).
  split_and!; try done.
  - unfold owned. by rewrite Hel1.
  - by rewrite Hr1, lookup_insert_eq.
  - unfold owned. rewrite He2, lookup_insert_eq. cbn.
    by destruct (cacheKey el).
  - by rewrite Hr2, lookup_insert_eq.
  - rewrite Hx1. lia.
  - rewrite Hr2, lookup_insert_ne by (rewrite Hx1; lia). cbn.
    apply lookup_delete_eq.
  - by rewrite Hc2.
  - intros Hcase. rewrite Ho1. apply border_shifted_same; try done.
    destruct Hcase as [?|?]; [by left|right; by left].
Qed.

Lemma setFocusToElement_refocus_witness :
  ∃ s1 s2 rc,
    setFocusToElement 1 None (example_store true) = Some (tt, s1)
    ∧ setFocusToElement 1 None s1 = Some (tt, s2)
    ∧ owned s1 1 = Some 0%nat ∧ rects s1 !! 0%nat = Some rc
    ∧ owned s2 1 = Some 1%nat ∧ rects s2 !! 1%nat = Some rc
    ∧ rects s2 !! 0%nat = None
    ∧ focusElement (chart s2) = Some 1%nat.
Proof.
  destruct (setFocusToElement_refocus (example_store true) 1%nat None
              example_text 1%nat (example_node "text"))
    as (s1 & s2 & k1 & k2 & rc1 & rc2 & Hrun1 & Hrun2 & Ho1 & Hr1 & Ho2 & Hr2
        & _ & Hgone & Hfoc & Hsame);
    [apply example_store_wf | reflexivity | reflexivity | reflexivity
    | reflexivity | discriminate |].
  rewrite Hsame in Hr2 by (by right).
  assert (k1 = 0%nat) as ->.
  { vm_compute in Hrun1. injection Hrun1 as <-. vm_compute in Ho1. congruence. }
  assert (k2 = 1%nat) as ->.
  { vm_compute in Hrun1. injection Hrun1 as <-.
    vm_compute in Hrun2. injection Hrun2 as <-. vm_compute in Ho2. congruence. }
  by exists s1, s2, rc1.
Defined.

(** X12: the rectangle [setFocusToElement] draws is the one a direct
    [addFocusBorder] draws from the chart's options: margin
    [focusBorder.margin], stroke [style.color], stroke width
    [style.lineWidth] and border radius [style.borderRadius]. Outside
    styled mode its stroke and stroke-width attributes are the configured
    colour and line width, and an integer border radius below 10^21 in
    magnitude is its corner radius. *)
Theorem setFocusToElement_style s e f el d nd :
  wf s →
  enabled (options (chart s)) = true →
  elems s !! e = Some el →
  element el = Some d →
  nodes s !! d = Some nd →
  (∀ d', f = Some d' → is_Some (nodes s !! d')) →
  ∃ s' s0 rc,
    setFocusToElement e f s = Some (tt, s')
    ∧ overlay s' e = Some rc
    ∧ addFocusBorder e (margin (options (chart s)))
        (Some {| stroke := color (style (options (chart s)));
                 strokeWidth := lineWidth (style (options (chart s)));
                 borderRadius := style_borderRadius (style (options (chart s))) |})
        s = Some (tt, s0)
    ∧ overlay s0 e = Some rc
    ∧ (styledMode s = false →
         rect_attrs rc !! "stroke" = Some (color (style (options (chart s))))
         ∧ rect_attrs rc !! "stroke-width"
             = Some (lineWidth (style (options (chart s)))))
    ∧ (∀ z, style_borderRadius (style (options (chart s)))
              = VNumber (Num (inject_Z z)) →
         Z.abs z < 10 ^ 21 → rect_r rc = Num (inject_Z z)).
Proof.
  intros Hwf Hen Hel Hd Hnd Hf.
  destruct (setFocusToElement_enabled s e f el d nd Hwf Hen Hel Hd Hnd Hf)
    as (s1 & s' & _ & Hrun & _ & _ & _ & _ & _ & _ & He & Hr).
  destruct (addFocusBorder_overlay s e el d nd (margin (options (chart s)))
              (Some (focusBorderStyle (options (chart s)))) Hel Hd Hnd)
    as (s0 & Hrun0 & _ & Hov0).
  exists s', s0, (border s el nd (margin (options (chart s)))
                    (Some (focusBorderStyle (options (chart s))))).
  split_and!; try done.
  - unfold overlay, owned. rewrite He, lookup_insert_eq. cbn.
    by rewrite Hr, lookup_insert_eq.
  - intros Hst. cbn. rewrite Hst. by simplify_map_eq.
  - intros z Hbr Hz. cbn. by apply corner_radius_number.
Qed.

Lemma setFocusToElement_style_witness :
  ∃ s' s0 rc,
    setFocusToElement 0 None (example_store false) = Some (tt, s')
    ∧ overlay s' 0 = Some rc
    ∧ addFocusBorder 0 (margin (options (chart (example_store false))))
        (Some {| stroke := color (style (options (chart (example_store false))));
                 strokeWidth :=
                   lineWidth (style (options (chart (example_store false))));
                 borderRadius :=
                   style_borderRadius
                     (style (options (chart (example_store false)))) |})
        (example_store false) = Some (tt, s0)
    ∧ overlay s0 0 = Some rc
    ∧ (styledMode (example_store false) = false →
         rect_attrs rc !! "stroke"
           = Some (color (style (options (chart (example_store false)))))
         ∧ rect_attrs rc !! "stroke-width"
             = Some (lineWidth (style (options (chart (example_store false))))))
    ∧ (∀ z, style_borderRadius (style (options (chart (example_store false))))
              = VNumber (Num (inject_Z z)) →
         Z.abs z < 10 ^ 21 → rect_r rc = Num (inject_Z z)).
Proof.
  apply (setFocusToElement_style (example_store false) 0%nat None example_shape
           0%nat (example_node "path")); try reflexivity; try discriminate.
  apply example_store_wf.
Defined.

(** X13: in every state a chart can reach through [setFocusToElement] and
    option changes, a recorded focus element owns a rectangle that is the
    only one in the document, carries the focus-border class and is added;
    and while no focus element is recorded there is no rectangle and no
    element owns one. *)
Theorem reachable_focus_owns_border s :
  reachable s → focus_owns_border s.
Proof.
  induction 1 as [s (Hwf & Hfoc & Hr & Ho)|s s' Hreach IH Hstep].
  - unfold focus_owns_border. by rewrite Hfoc.
  - destruct (reachable_single_border s Hreach) as [Hwf _].
    destruct Hstep as [s e f s' Hcall Hrun|s o]; [|done].
    destruct Hcall as [[el Hel] Hf].
    destruct (enabled (options (chart s))) eqn:Hen.
    + destruct (proj1 Hwf e el Hel) as (d & Hd & [nd Hnd]).
      destruct (setFocusToElement_enabled s e f el d nd Hwf Hen Hel Hd Hnd Hf)
        as (s1 & s'' & _ & Hrun' & _ & _ & _ & _ & Hc & _ & He & Hr).
      rewrite Hrun in Hrun'. injection Hrun' as <-.
      unfold focus_owns_border. rewrite Hc. cbn.
      exists (nextRect s), (border s el nd (margin (options (chart s)))
                              (Some (focusBorderStyle (options (chart s))))).
      split; [unfold owned; by rewrite He, lookup_insert_eq|].
      split; [|done]. rewrite Hr.
      assert (erase (focusElement (chart s) ≫= owned s) (rects s) = ∅) as ->.
      { unfold focus_owns_border in IH.
        destruct (focusElement (chart s)) as [old|]; cbn.
        - destruct IH as (k & rc & -> & -> & _). cbn. apply delete_singleton_eq.
        - destruct IH as [-> _]. done. }
      by rewrite erase_empty, insert_empty.
    + destruct (setFocusToElement_spec s e f el Hwf Hel Hf)
        as (s1 & s'' & _ & _ & Hrun' & _ & _ & _ & _ & _ & _ & _ & _ & Hdis).
      rewrite Hrun in Hrun'. injection Hrun' as <-.
      destruct (Hdis Hen) as (Hc & He & Hr & _).
      unfold focus_owns_border, owned in *. by rewrite Hc, He, Hr.
Qed.

Lemma reachable_focus_owns_border_witness :
  ∃ k rc,
    owned example_focused_store 0 = Some k
    ∧ rects example_focused_store = {[k := rc]}
    ∧ rect_class rc = ["highcharts-focus-border"]
    ∧ rect_added rc = true.
Proof.
  apply (reachable_focus_owns_border example_focused_store).
  apply (reachable_step (example_store false)).
  - apply reachable_initial, example_store_initial.
  - apply (step_focus _ 0%nat None).
    + split; [vm_compute; eauto | discriminate].
    + vm_compute. reflexivity.
Defined.

(** X14: [setFocusToElement] removes the border of the chart's focus
    element only. A border drawn by a direct [addFocusBorder] on another
    element B, which records no focus element, is still B's and in the
    document after focus was set to A, next to A's own. *)
Theorem setFocusToElement_keeps_direct_border s A B fA margin style :
  initial s →
  enabled (options (chart s)) = true →
  A ≠ B →
  callable s A fA →
  is_Some (elems s !! B) →
  ∃ s1 s2 kA kB rcA rcB,
    addFocusBorder B margin style s = Some (tt, s1)
    ∧ focusElement (chart s1) = None
    ∧ overlay s1 B = Some rcB
    ∧ setFocusToElement A fA s1 = Some (tt, s2)
    ∧ owned s2 B = Some kB ∧ rects s2 !! kB = Some rcB
    ∧ owned s2 A = Some kA ∧ rects s2 !! kA = Some rcA
    ∧ kA ≠ kB.
Proof.
  intros (Hwf & Hfoc & Hr & Ho) Hen Hne [[elA HelA] HfA] [elB HelB].
  destruct (proj1 Hwf B elB HelB) as (d & Hd & [nd Hnd]).
  destruct (addFocusBorder_run s B elB d nd margin style HelB Hd Hnd)
    as (s1 & Hrun1 & Hc1 & Hn1 & _ & _ & _ & Hx1 & He1 & Hr1).
  assert (owned s1 B = Some (nextRect s)) as HoB.
  { unfold owned. by rewrite He1, lookup_insert_eq. }
  assert (owned s1 A = None) as HoA.
  { pose proof (Ho A) as HA. unfold owned in *.
    by rewrite He1, lookup_insert_ne, owned_shift. }
  assert (wf s1) as Hwf1.
  { split.
    - intros e el. rewrite He1, Hn1, lookup_insert. case_decide; subst.
      + intros [= <-]. cbn. rewrite (proj1 (shifted_fields elB)). eauto.
      + intros Hel. pose proof (proj1 (shift_bBox_fields elB (elems s) e)) as Hfr.
        rewrite Hel in Hfr. destruct (elems s !! e) as [el0|] eqn:Hel0; [|done].
        injection Hfr as ->. by apply (proj1 Hwf e el0).
    - by rewrite Hc1, Hfoc. }
  destruct (setFocusToElement_owned s1 A fA Hwf1)
    as (s2 & Hrun2 & _ & _ & _ & _ & HoA2 & [rcA HrcA] & Hoth & Hrs & _).
  { by rewrite Hc1. }
  { split; [|by rewrite Hn1].
    rewrite He1, lookup_insert_ne by done.
    apply (is_Some_fmap_eq element) with (y := elems s !! A);
      [apply shift_bBox_fields|by eexists]. }
  assert (rects s1 !! nextRect s = Some (border s elB nd margin style)) as HrcB
    by (by rewrite Hr1, lookup_insert_eq).
  exists s1, s2, (nextRect s1), (nextRect s), rcA,
    (border s elB nd margin style).
  split_and!; try done.
  - by rewrite Hc1.
  - by rewrite (overlay_owned _ _ _ HoB).
  - rewrite (Hoth B) by done. rewrite Hc1, Hfoc. by rewrite decide_False.
  - rewrite Hrs by (rewrite Hx1; lia).
    rewrite decide_False; [done|]. rewrite HoA, Hc1, Hfoc. cbn.
    by intros [|].
  - rewrite Hx1. lia.
Qed.

Lemma setFocusToElement_keeps_direct_border_witness :
  ∃ s1 s2 kA kB rcA rcB,
    addFocusBorder 1 None None (example_store false) = Some (tt, s1)
    ∧ focusElement (chart s1) = None
    ∧ overlay s1 1 = Some rcB
    ∧ setFocusToElement 0 None s1 = Some (tt, s2)
    ∧ owned s2 1 = Some kB ∧ rects s2 !! kB = Some rcB
    ∧ owned s2 0 = Some kA ∧ rects s2 !! kA = Some rcA
    ∧ kA ≠ kB.
Proof.
  apply (setFocusToElement_keeps_direct_border (example_store false) 0%nat
           1%nat None None None).
  - apply example_store_initial.
  - reflexivity.
  - discriminate.
  - split; [vm_compute; eauto | discriminate].
  - vm_compute; eauto.
Defined.

(** X15: on a wrapper that has no DOM node (as after it was destroyed)
    [addFocusBorder] throws; so does
    [setFocusToElement] with borders enabled, whatever the [focusElement]
    argument, while with borders disabled and no [focusElement] it returns
    and changes nothing. *)
Theorem addFocusBorder_detached_throws s this el margin style f :
  elems s !! this = Some el →
  element el = None →
  addFocusBorder this margin style s = None
  ∧ (enabled (options (chart s)) = true → setFocusToElement this f s = None)
  ∧ (enabled (options (chart s)) = false →
       setFocusToElement this None s = Some (tt, s)).
Proof.
  intros Hel Hd. split; [by eapply addFocusBorder_detached|]. split.
  - intros Hen. unfold setFocusToElement.
    rewrite (bind_run _ _ s (options (chart s)) s eq_refl).
    rewrite (bind_run _ _ _ _ _ (getElement_run _ _ _ Hel)).
    unfold bind at 1.
    destruct (setBrowserFocus _ _ s) as [[[] s1]|] eqn:Hb; [|done].
    apply setBrowserFocus_inv in Hb as (Hc1 & He1 & _).
    rewrite Hen. rewrite (bind_run _ _ s1 (focusElement (chart s1)) s1 eq_refl).
    unfold bind at 1.
    destruct (match focusElement (chart s1) with
              | Some e0 => removeFocusBorder e0
              | None => ret ()
              end s1) as [[[] s2]|] eqn:Hrm; [|done].
    assert (element <$> elems s2 !! this = Some None) as Hel2.
    { destruct (focusElement (chart s1)) as [old|].
      - rewrite (removeFocusBorder_inv _ _ _ Hrm), He1, Hel. cbn. by rewrite Hd.
      - injection Hrm as <-. rewrite He1, Hel. cbn. by rewrite Hd. }
    destruct (elems s2 !! this) as [el2|] eqn:Hel2'; [|done].
    injection Hel2 as Hd2.
    unfold bind at 1. by rewrite (addFocusBorder_detached _ _ _ _ _ Hel2' Hd2).
  - intros Hen. rewrite (setFocusToElement_disabled s this None el Hen Hel).
    cbn. by rewrite Hd.
Qed.

Lemma addFocusBorder_detached_throws_witness :
  addFocusBorder 2 None None example_detached_store = None
  ∧ (enabled (options (chart example_detached_store)) = true →
       setFocusToElement 2 (Some 0%nat) example_detached_store = None)
  ∧ (enabled (options (chart example_detached_store)) = false →
       setFocusToElement 2 None example_detached_store
       = Some (tt, example_detached_store)).
Proof.
  apply (addFocusBorder_detached_throws example_detached_store 2%nat
           example_detached None None (Some 0%nat)); reflexivity.
Defined.

(** X16: a translation offset that is there but falsy (0 or NaN) counts
    as no offset: the element gets the rectangle it would get without
    [translateX] and [translateY], so that a NaN offset does not reach the
    rectangle; in exact arithmetic and in binary64. *)
Theorem addFocusBorder_falsy_offset s this el d nd margin style :
  elems s !! this = Some el →
  element el = Some d →
  nodes s !! d = Some nd →
  (∀ n, translateX el = Some n → toBoolean n = false) →
  (∀ n, translateY el = Some n → toBoolean n = false) →
  (∃ s1 s2 rc,
     addFocusBorder this margin style s = Some (tt, s1)
     ∧ overlay s1 this = Some rc
     ∧ addFocusBorder this margin style
         (set_elems (<[this := move_to (bb_x (bBox el)) (bb_y (bBox el))
                                 None None el]> (elems s)) s)
       = Some (tt, s2)
     ∧ overlay s2 this = Some rc)
  ∧ (∀ firefox name (fbb : BBox float) ftx fty frot fx fy fm,
       (∀ n, ftx = Some n → toBoolean n = false) →
       (∀ n, fty = Some n → toBoolean n = false) →
       borderRect firefox name fbb ftx fty frot fx fy fm =
       borderRect firefox name fbb None None frot fx fy fm).
Proof.
  intros Hel Hd Hnd Hx Hy.
  split; [|intros; by apply borderRect_falsy_offset].
  destruct (addFocusBorder_overlay s this el d nd margin style Hel Hd Hnd)
    as (s1 & Hrun1 & _ & Hov1).
  set (el0 := move_to (bb_x (bBox el)) (bb_y (bBox el)) None None el).
  destruct (addFocusBorder_overlay (set_elems (<[this := el0]> (elems s)) s)
              this el0 d nd margin style)
    as (s2 & Hrun2 & _ & Hov2); [apply lookup_insert_eq|done..|].
  exists s1, s2, (border s el nd margin style). split_and!; try done.
  rewrite Hov2. f_equal. unfold border. cbn.
  rewrite (borderRect_falsy_offset _ _ (bBox el) (translateX el) (translateY el))
    by done.
  by destruct (bBox el).
Qed.

Lemma addFocusBorder_falsy_offset_witness :
  (∃ s1 s2 rc,
     addFocusBorder 0 None None example_adrift_store = Some (tt, s1)
     ∧ overlay s1 0 = Some rc
     ∧ addFocusBorder 0 None None
         (set_elems (<[0%nat := move_to (bb_x (bBox example_adrift))
                                  (bb_y (bBox example_adrift)) None None
                                  example_adrift]>
                       (elems example_adrift_store)) example_adrift_store)
       = Some (tt, s2)
     ∧ overlay s2 0 = Some rc)
  ∧ (∀ firefox name (fbb : BBox float) ftx fty frot fx fy fm,
       (∀ n, ftx = Some n → toBoolean n = false) →
       (∀ n, fty = Some n → toBoolean n = false) →
       borderRect firefox name fbb ftx fty frot fx fy fm =
       borderRect firefox name fbb None None frot fx fy fm).
Proof.
  apply (addFocusBorder_falsy_offset example_adrift_store 0%nat example_adrift
           0%nat (example_node "path") None None); try reflexivity.
  - intros n [= <-]. reflexivity.
  - intros n [= <-]. reflexivity.
Defined.

(** X17: two calls of [addFocusBorder] in a row with the same
    arguments leave the element with one rectangle: the rectangle of the
    first call is destroyed, the rectangles of others are untouched, and
    no more rectangles are live than after one call. The second rectangle
    has the size, corner radius, class, attributes and parent of the
    first, and it is equal to the first when the element is a text, when
    its bounding box is not kept in the cache, or when its translation
    offsets are absent or falsy. *)
Theorem addFocusBorder_twice s this el d nd margin style :
  elems s !! this = Some el →
  element el = Some d →
  nodes s !! d = Some nd →
  ∃ s1 s2 k1 k2 rc1 rc2,
    addFocusBorder this margin style s = Some (tt, s1)
    ∧ addFocusBorder this margin style s1 = Some (tt, s2)
    ∧ owned s1 this = Some k1 ∧ rects s1 !! k1 = Some rc1
    ∧ owned s2 this = Some k2 ∧ rects s2 !! k2 = Some rc2
    ∧ rects s2 !! k1 = None
    ∧ (∀ k, k ≠ k1 → k ≠ k2 → rects s2 !! k = rects s1 !! k)
    ∧ (size (rects s2) ≤ size (rects s1))%nat
    ∧ bb_width (rect_box rc2) = bb_width (rect_box rc1)
    ∧ bb_height (rect_box rc2) = bb_height (rect_box rc1)
    ∧ rect_r rc2 = rect_r rc1
    ∧ rect_class rc2 = rect_class rc1
    ∧ rect_attrs rc2 = rect_attrs rc1
    ∧ rect_added rc2 = rect_added rc1
    ∧ rect_parent rc2 = rect_parent rc1
    ∧ (cacheKey el = None ∨ nodeName nd = "text"
       ∨ (no_offset (translateX el) ∧ no_offset (translateY el)) →
       rc2 = rc1).
Proof.
  intros Hel Hd Hnd.
  destruct (addFocusBorder_run s this el d nd margin style Hel Hd Hnd)
    as (s1 & Hrun1 & Hc1 & Hn1 & Ht1 & Hs1 & Hf1 & Hx1 & He1 & Hr1).
  assert (elems s1 !! this
          = Some (set_focusBorder (Some (nextRect s)) (shifted el)))
    as Hel1 by (by rewrite He1, lookup_insert_eq).
  destruct (addFocusBorder_run s1 this _ d nd margin style Hel1)
    as (s2 & Hrun2 & Hc2 & Hn2 & Ht2 & Hs2 & Hf2 & Hx2 & He2 & Hr2);
    [cbn; by rewrite (proj1 (shifted_fields el))|by rewrite Hn1|].
  cbn in Hr2. rewrite Hx1 in *.
  assert (rects s1 !! nextRect s = Some (border s el nd margin style)) as Hk1
    by (by rewrite Hr1, lookup_insert_eq).
  pose proof (border_shifted s s1 el nd nd margin style (Some (nextRect s))
                Hf1 Hs1 eq_refl) as Hrc2.
  pose proof (border_shifted_same s s1 el nd nd margin style
                (Some (nextRect s)) Hf1 Hs1 eq_refl) as Hsame.
  rewrite Hrc2 in Hsame.
  exists s1, s2, (nextRect s), (S (nextRect s)), (border s el nd margin style).
  match type of Hrc2 with _ = ?rc2 => exists rc2 end. split_and!; try done.
  - unfold owned. rewrite Hel1. done.
  - unfold owned. by rewrite He2, lookup_insert_eq.
  - rewrite Hr2, lookup_insert_eq, Hrc2. reflexivity.
  - rewrite Hr2, lookup_insert_ne by lia. apply lookup_delete_eq.
  - intros k Hk1' Hk2. by rewrite Hr2, lookup_insert_ne, lookup_delete_ne.
  - rewrite Hr2, map_size_insert, map_size_delete, Hk1.
    assert (size (rects s1) ≠ 0%nat).
    { intros Hz. apply map_size_empty_iff in Hz. by rewrite Hz in Hk1. }
    destruct (delete _ _ !! _); cbn; lia.
  - cbn -[borderRect]. unfold shifted.
    destruct (cacheKey el); [|done]. apply borderRect_translated_size.
  - cbn -[borderRect]. unfold shifted.
    destruct (cacheKey el); [|done]. apply borderRect_translated_size.
Qed.

Lemma addFocusBorder_twice_witness :
  ∃ s1 s2 k1 k2 rc,
    addFocusBorder 1 None None (example_store false) = Some (tt, s1)
    ∧ addFocusBorder 1 None None s1 = Some (tt, s2)
    ∧ owned s1 1 = Some k1 ∧ rects s1 !! k1 = Some rc
    ∧ owned s2 1 = Some k2 ∧ rects s2 !! k2 = Some rc
    ∧ rects s2 !! k1 = None
    ∧ size (rects s2) = 1%nat.
Proof.
  destruct (addFocusBorder_twice (example_store false) 1%nat example_text
              1%nat (example_node "text") None None)
    as (s1 & s2 & k1 & k2 & rc1 & rc2 & Hrun1 & Hrun2 & Ho1 & Hr1 & Ho2 & Hr2
        & Hgone & _ & Hsize & _ & _ & _ & _ & _ & _ & _ & Hsame);
    [reflexivity..|].
  rewrite Hsame in Hr2 by (right; left; reflexivity).
  exists s1, s2, k1, k2, rc1. split_and!; try done.
  vm_compute in Hrun1. injection Hrun1 as <-.
  vm_compute in Hrun2. injection Hrun2 as <-.
  vm_compute. reflexivity.
Defined.

(** X18: on a browser focus element that can take focus and has
    no focusin entry in [hcEvents] (no [hcEvents] at all, or none for
    focusin), [setFocusToElement] registers one no-op focusin listener and
    then calls [focus()]; on one that has a listener registered it
    registers none. A second call in a row registers none either. *)
Theorem setFocusToElement_focusin s e f el d nd :
  wf s →
  elems s !! e = Some el →
  (∀ d', f = Some d' → is_Some (nodes s !! d')) →
  f = Some d ∨ (f = None ∧ element el = Some d) →
  nodes s !! d = Some nd →
  focus nd = true →
  ∃ s1 nd1 s2 nd2,
    setFocusToElement e f s = Some (tt, s1)
    ∧ nodes s1 !! d = Some nd1
    ∧ (hcEvents nd = None
       ∨ (∃ ev, hcEvents nd = Some ev ∧ ev !! "focusin" = None) →
         trace s1 = trace s ++ [AddEventListener d "focusin"; Focus d]
         ∧ hcEvents nd1
             = Some (<["focusin" := [NoOp]]> (default ∅ (hcEvents nd))))
    ∧ (∀ ev l, hcEvents nd = Some ev → ev !! "focusin" = Some l → l ≠ [] →
         trace s1 = trace s ++ [Focus d]
         ∧ hcEvents nd1 = Some ev)
    ∧ setFocusToElement e f s1 = Some (tt, s2)
    ∧ nodes s2 !! d = Some nd2
    ∧ trace s2 = trace s1 ++ [Focus d]
    ∧ hcEvents nd2 = hcEvents nd1.
Proof.
  intros Hwf Hel Hf Hd Hnd Hfoc. apply browserFocusElement_target in Hd.
  set (hide := hideBrowserFocusOutline (options (chart s))).
  destruct (setFocusToElement_spec s e f el Hwf Hel Hf)
    as (t1 & s1 & Hb1 & _ & Hrun1 & Hn1 & Ht1 & _ & _ & Ho1 & Hwf1 & Hfr1
        & Hdom1 & _).
  rewrite Hd in Hb1.
  destruct (setBrowserFocus_explicit (options (chart s)) s d nd Hnd Hfoc)
    as (t1' & Hb1' & Hnodes1 & Htr1).
  rewrite Hb1 in Hb1'. injection Hb1' as <-.
  rewrite <- Hn1 in Hnodes1. rewrite <- Ht1 in Htr1.
  assert (nodes s1 !! d = Some (focused_node hide nd)) as Hnd1
    by (by rewrite Hnodes1, lookup_insert_eq).
  pose proof (Hfr1 e) as Hfre. rewrite Hel in Hfre.
  destruct (elems s1 !! e) as [el1|] eqn:Hel1; [|done]. injection Hfre as Helem.
  assert (browserFocusElement f el1 = Some d) as Hd1.
  { destruct f; cbn in *; congruence. }
  destruct (setFocusToElement_spec s1 e f el1 Hwf1 Hel1)
    as (t2 & s2 & Hb2 & _ & Hrun2 & Hn2 & Ht2 & _).
  { intros d' Hd'. apply Hdom1. by apply Hf. }
  rewrite Hd1 in Hb2.
  destruct (setBrowserFocus_explicit (options (chart s1)) s1 d
              (focused_node hide nd) Hnd1 Hfoc)
    as (t2' & Hb2' & Hnodes2 & Htr2).
  rewrite Hb2 in Hb2'. injection Hb2' as <-.
  rewrite <- Hn2 in Hnodes2. rewrite <- Ht2 in Htr2.
  unfold focus_effects in Htr1, Htr2.
  rewrite has_listeners_focused_node in Htr2.
  exists s1, (focused_node hide nd), s2,
    (focused_node (hideBrowserFocusOutline (options (chart s1)))
       (focused_node hide nd)).
  split_and!; try done.
  - intros Hno. apply has_listeners_no_entry in Hno.
    rewrite Hno in Htr1. split; [done|]. cbn. by rewrite Hno.
  - intros ev l Hev Hl _.
    assert (has_listeners "focusin" nd = true) as Hyes
      by (apply has_listeners_entry; eauto).
    rewrite Hyes in Htr1. split; [done|]. cbn. by rewrite Hyes.
  - by rewrite Hnodes2, lookup_insert_eq.
  - cbn. by rewrite has_listeners_focused_node.
Qed.

Lemma setFocusToElement_focusin_witness :
  ∃ s1 nd1 s2 nd2,
    setFocusToElement 0 None (example_store false) = Some (tt, s1)
    ∧ nodes s1 !! 0%nat = Some nd1
    ∧ trace s1 = [AddEventListener 0 "focusin"; Focus 0]
    ∧ hcEvents nd1 = Some (<["focusin" := [NoOp]]> ∅)
    ∧ setFocusToElement 0 None s1 = Some (tt, s2)
    ∧ nodes s2 !! 0%nat = Some nd2
    ∧ trace s2 = [AddEventListener 0 "focusin"; Focus 0; Focus 0]
    ∧ hcEvents nd2 = Some (<["focusin" := [NoOp]]> ∅).
Proof.
  destruct (setFocusToElement_focusin (example_store false) 0%nat None
              example_shape 0%nat (example_node "path"))
    as (s1 & nd1 & s2 & nd2 & Hrun1 & Hnd1 & Hadd & _ & Hrun2 & Hnd2 & Ht2
        & Hev2);
    [apply example_store_wf | reflexivity | discriminate | by right
    | reflexivity | reflexivity |].
  destruct Hadd as [Ht1 Hev1]; [by left|].
  exists s1, nd1, s2, nd2. rewrite Ht2, Hev2, Ht1, Hev1.
  by split_and!.
Defined.
